(** * Vitamin reminder bot (vitamin_bot.py, config.py)

    A shallow embedding of the reminder store ([VitaminDatabase]), of the two
    periodic passes ([send_vitamin_reminder], [send_repeat_reminders]) and of
    the handlers that read or change reminder state ([handle_callback],
    [send_postponed_reminder], [show_statistics]).

    Conventions.
    - A Python function that can raise is a computation in the state and
      exception monad [SE S]; [try ... except Exception] is [try_except].
    - SQLite and Telegram calls can fail.  A store method takes the outcome
      of its SQLite calls as the flag [fails]; handlers and passes read the
      outcomes of their successive I/O calls from the list [w_io] of the
      world they run in (an exhausted list means that every call succeeds).
    - The wall clock is an argument [now] of every function that reads it.
    - [logger] calls are not modelled, nor are the columns [created_at] and
      [taken_at], which SQLite fills in and the program never reads. *)

From Stdlib Require Import ZArith String Ascii List Bool Lia.
From Stdlib Require Import DecimalString DecimalZ DecimalPos.
From stdpp Require Import base gmap strings list.
Import ListNotations.

Open Scope Z_scope.

(** ** Exceptions and the state and exception monad *)

Inductive exn : Type :=
| sqlite3_Error      (* raised by sqlite3.connect / execute / commit *)
| TelegramError      (* raised by the messaging calls *)
| TypeError
| ValueError
| IndexError.

Inductive outcome (A : Type) : Type :=
| Return (a : A)
| Raise (e : exn).
Arguments Return {A} a.
Arguments Raise {A} e.

Definition SE (S A : Type) : Type := S -> outcome A * S.

Definition ret {S A} (a : A) : SE S A := fun s => (Return a, s).

Definition raise {S A} (e : exn) : SE S A := fun s => (Raise e, s).

Definition bind {S A B} (m : SE S A) (k : A -> SE S B) : SE S B :=
  fun s => match m s with
           | (Return a, s') => k a s'
           | (Raise e, s') => (Raise e, s')
           end.

(** [try: body  except Exception as e: handler] *)
Definition try_except {S A} (body : SE S A) (handler : exn -> SE S A) : SE S A :=
  fun s => match body s with
           | (Return a, s') => (Return a, s')
           | (Raise e, s') => handler e s'
           end.

Declare Scope se_scope.
Delimit Scope se_scope with se.
Notation "x <- m ;; k" := (bind m (fun x => k))
  (at level 100, m at next level, right associativity) : se_scope.
Notation "m ;; k" := (bind m (fun _ => k))
  (at level 100, right associativity) : se_scope.
Open Scope se_scope.

(** [for x in l: body x] *)
Fixpoint for_each {S A} (body : A -> SE S unit) (l : list A) : SE S unit :=
  match l with
  | [] => ret tt
  | x :: l' => body x ;; for_each body l'
  end.

Definition result {S A} (r : outcome A * S) : outcome A := fst r.
Definition state_of {S A} (r : outcome A * S) : S := snd r.

(** ** Dates and times

    A [datetime] is an aware Python datetime: its wall-clock fields, counted
    in microseconds since the start of day 0, and the UTC offset of its zone
    in microseconds. *)

Record datetime : Type := mk_datetime { wall : Z; utcoffset : Z }.

Definition microseconds_per_day : Z := 86400000000.

(** [dt.date()], as the number of the day *)
Definition date_of (dt : datetime) : Z := wall dt / microseconds_per_day.

Definition hour_of (dt : datetime) : Z := (wall dt / 3600000000) mod 24.
Definition minute_of (dt : datetime) : Z := (wall dt / 60000000) mod 60.

(** [str(n)] for an [int] *)
Definition str_of_int (n : Z) : string := NilZero.string_of_int (Z.to_int n).

Definition two_digits (n : Z) : string :=
  if n <? 10 then "0" +:+ str_of_int n else str_of_int n.

(** [dt.time().strftime("%H:%M")] *)
Definition strftime_HM (dt : datetime) : string :=
  two_digits (hour_of dt) +:+ ":" +:+ two_digits (minute_of dt).

(** [timedelta(seconds=n)] *)
Definition timedelta_seconds (n : Z) : Z := n * 1000000.

(** [a - b] on aware datetimes: the difference of the two instants *)
Definition datetime_sub (a b : datetime) : Z :=
  (wall a - utcoffset a) - (wall b - utcoffset b).

(** A [tzinfo] object gives the UTC offset it reports for wall-clock fields. *)
Definition tzinfo : Type := Z -> Z.

(** [dt.replace(tzinfo=tz)]: the wall-clock fields stay, the zone changes. *)
Definition replace_tzinfo (dt : datetime) (tz : tzinfo) : datetime :=
  {| wall := wall dt; utcoffset := tz (wall dt) |}.

(** ** The store: three tables and their AUTOINCREMENT counters *)

Record vitamin : Type := mk_vitamin {
  vit_id : Z;
  vit_user_id : Z;
  vit_name : string;
  vit_reminder_time : string;
  vit_is_active : bool
}.

Record vitamin_log : Type := mk_vitamin_log {
  log_id : Z;
  log_vitamin_id : Z;
  log_user_id : Z;
  log_status : string
}.

Record active_reminder : Type := mk_active_reminder {
  rem_id : Z;
  rem_vitamin_id : Z;
  rem_user_id : Z;
  rem_reminder_date : Z;
  rem_last_reminder : datetime;
  rem_attempts : Z
}.

Record database : Type := mk_database {
  vitamins : list vitamin;
  vitamin_logs : list vitamin_log;
  active_reminders : list active_reminder;
  seq_vitamins : Z;
  seq_vitamin_logs : Z;
  seq_active_reminders : Z
}.

(** [init_database] on a fresh file: the three tables, empty. *)
Definition init_database : database :=
  {| vitamins := []; vitamin_logs := []; active_reminders := [];
     seq_vitamins := 0; seq_vitamin_logs := 0; seq_active_reminders := 0 |}.

Definition set_vitamins (f : list vitamin -> list vitamin) (d : database) : database :=
  {| vitamins := f (vitamins d); vitamin_logs := vitamin_logs d;
     active_reminders := active_reminders d;
     seq_vitamins := seq_vitamins d; seq_vitamin_logs := seq_vitamin_logs d;
     seq_active_reminders := seq_active_reminders d |}.

Definition set_active_reminders
    (f : list active_reminder -> list active_reminder) (d : database) : database :=
  {| vitamins := vitamins d; vitamin_logs := vitamin_logs d;
     active_reminders := f (active_reminders d);
     seq_vitamins := seq_vitamins d; seq_vitamin_logs := seq_vitamin_logs d;
     seq_active_reminders := seq_active_reminders d |}.

(** *** SQL statements, as functions on the tables *)

(** INSERT INTO vitamins (user_id, name, reminder_time) VALUES (?, ?, ?) *)
Definition insert_vitamin (user_id : Z) (name reminder_time : string)
    (d : database) : database :=
  {| vitamins := vitamins d ++
       [ {| vit_id := seq_vitamins d + 1; vit_user_id := user_id; vit_name := name;
            vit_reminder_time := reminder_time; vit_is_active := true |} ];
     vitamin_logs := vitamin_logs d;
     active_reminders := active_reminders d;
     seq_vitamins := seq_vitamins d + 1;
     seq_vitamin_logs := seq_vitamin_logs d;
     seq_active_reminders := seq_active_reminders d |}.

(** INSERT INTO vitamin_logs (vitamin_id, user_id, status) VALUES (?, ?, ?) *)
Definition insert_vitamin_log (vitamin_id user_id : Z) (status : string)
    (d : database) : database :=
  {| vitamins := vitamins d;
     vitamin_logs := vitamin_logs d ++
       [ {| log_id := seq_vitamin_logs d + 1; log_vitamin_id := vitamin_id;
            log_user_id := user_id; log_status := status |} ];
     active_reminders := active_reminders d;
     seq_vitamins := seq_vitamins d;
     seq_vitamin_logs := seq_vitamin_logs d + 1;
     seq_active_reminders := seq_active_reminders d |}.

(** INSERT INTO active_reminders (vitamin_id, user_id, reminder_date,
    last_reminder) VALUES (?, ?, ?, ?); [attempts] takes its default 0. *)
Definition insert_active_reminder (vitamin_id user_id today : Z) (now : datetime)
    (d : database) : database :=
  {| vitamins := vitamins d;
     vitamin_logs := vitamin_logs d;
     active_reminders := active_reminders d ++
       [ {| rem_id := seq_active_reminders d + 1; rem_vitamin_id := vitamin_id;
            rem_user_id := user_id; rem_reminder_date := today;
            rem_last_reminder := now; rem_attempts := 0 |} ];
     seq_vitamins := seq_vitamins d;
     seq_vitamin_logs := seq_vitamin_logs d;
     seq_active_reminders := seq_active_reminders d + 1 |}.

(** WHERE vitamin_id = ? AND user_id = ? AND reminder_date = ? *)
Definition reminder_for (vitamin_id user_id today : Z) (r : active_reminder) : bool :=
  (rem_vitamin_id r =? vitamin_id) && (rem_user_id r =? user_id)
  && (rem_reminder_date r =? today).

(** SELECT id FROM active_reminders WHERE ...; [cursor.fetchone()] *)
Definition select_reminder_id (vitamin_id user_id today : Z) (d : database) : option Z :=
  option_map rem_id
    (List.find (reminder_for vitamin_id user_id today) (active_reminders d)).

(** DELETE FROM active_reminders WHERE vitamin_id = ? AND user_id = ? AND
    reminder_date = ? *)
Definition delete_active_reminder (vitamin_id user_id today : Z) : database -> database :=
  set_active_reminders
    (List.filter (fun r => negb (reminder_for vitamin_id user_id today r))).

(** UPDATE active_reminders SET attempts = attempts + 1, last_reminder = ?
    WHERE id = ? *)
Definition bump (now : datetime) (r : active_reminder) : active_reminder :=
  {| rem_id := rem_id r; rem_vitamin_id := rem_vitamin_id r;
     rem_user_id := rem_user_id r; rem_reminder_date := rem_reminder_date r;
     rem_last_reminder := now; rem_attempts := rem_attempts r + 1 |}.

Definition update_attempt (now : datetime) (reminder_id : Z) : database -> database :=
  set_active_reminders
    (List.map (fun r => if rem_id r =? reminder_id then bump now r else r)).

(** UPDATE vitamins SET is_active = 0 WHERE id = ? AND user_id = ? *)
Definition deactivate (v : vitamin) : vitamin :=
  {| vit_id := vit_id v; vit_user_id := vit_user_id v; vit_name := vit_name v;
     vit_reminder_time := vit_reminder_time v; vit_is_active := false |}.

Definition update_is_active (vitamin_id user_id : Z) : database -> database :=
  set_vitamins
    (List.map (fun v => if (vit_id v =? vitamin_id) && (vit_user_id v =? user_id)
                        then deactivate v else v)).

(** SELECT id, name, reminder_time, is_active FROM vitamins
    WHERE user_id = ? AND is_active = 1 *)
Definition vitamin_tuple : Type := Z * string * string * bool.

Definition select_user_vitamins (user_id : Z) (d : database) : list vitamin_tuple :=
  List.map (fun v => (vit_id v, vit_name v, vit_reminder_time v, vit_is_active v))
    (List.filter (fun v => (vit_user_id v =? user_id) && vit_is_active v) (vitamins d)).

(** SELECT ar.id, ar.vitamin_id, v.name, ar.attempts, ar.last_reminder
    FROM active_reminders ar JOIN vitamins v ON ar.vitamin_id = v.id
    WHERE ar.user_id = ? AND ar.reminder_date = ?

    The connection is opened with [PARSE_DECLTYPES] and the module registers
    [convert_datetime] for TIMESTAMP columns, so [last_reminder] arrives as a
    [datetime] object. *)
Definition reminder_tuple : Type := Z * Z * string * Z * datetime.

Definition select_active_reminders (user_id today : Z) (d : database)
    : list reminder_tuple :=
  List.flat_map
    (fun ar =>
       List.map
         (fun v => (rem_id ar, rem_vitamin_id ar, vit_name v, rem_attempts ar,
                    rem_last_reminder ar))
         (List.filter (fun v => vit_id v =? rem_vitamin_id ar) (vitamins d)))
    (List.filter
       (fun ar => (rem_user_id ar =? user_id) && (rem_reminder_date ar =? today))
       (active_reminders d)).

(** *** Connections *)

Definition execute (stmt : database -> database) : SE database unit :=
  fun d => (Return tt, stmt d).

Definition fetch {A} (q : database -> A) : SE database A :=
  fun d => (Return (q d), d).

(** [with sqlite3.connect(...) as conn: body].  When a call on the connection
    fails, the block is left by [sqlite3.Error] and the connection rolls back
    what the block did.  (Where a method commits by hand before it returns,
    the commit that the [with] statement repeats on the way out has nothing
    left to write and is taken to succeed.) *)
Definition with_connection {A} (fails : bool) (body : SE database A) : SE database A :=
  fun d => if fails then (Raise sqlite3_Error, d)
           else match body d with
                | (Return a, d') => (Return a, d')
                | (Raise e, _) => (Raise e, d)
                end.

(** ** class VitaminDatabase *)

Definition add_vitamin (fails : bool) (user_id : Z) (name reminder_time : string)
    : SE database bool :=
  try_except
    (with_connection fails
       (execute (insert_vitamin user_id name reminder_time) ;;
        ret true))
    (fun _ => ret false).

Definition get_user_vitamins (fails : bool) (user_id : Z)
    : SE database (list vitamin_tuple) :=
  with_connection fails (fetch (select_user_vitamins user_id)).

Definition log_vitamin_intake (fails : bool) (now : datetime)
    (vitamin_id user_id : Z) (status : string) : SE database bool :=
  try_except
    (with_connection fails
       (execute (insert_vitamin_log vitamin_id user_id status) ;;
        (if String.eqb status "taken"
         then let today := date_of now in
              execute (delete_active_reminder vitamin_id user_id today)
         else ret tt) ;;
        ret true))
    (fun _ => ret false).

Definition add_active_reminder (fails : bool) (now : datetime)
    (vitamin_id user_id : Z) : SE database bool :=
  try_except
    (let today := date_of now in
     with_connection fails
       (row <- fetch (select_reminder_id vitamin_id user_id today) ;;
        (match row with
         | None => execute (insert_active_reminder vitamin_id user_id today now)
         | Some _ => ret tt
         end) ;;
        ret true))
    (fun _ => ret false).

Definition get_active_reminders (fails : bool) (now : datetime) (user_id : Z)
    : SE database (list reminder_tuple) :=
  let today := date_of now in
  with_connection fails (fetch (select_active_reminders user_id today)).

Definition update_reminder_attempt (fails : bool) (now : datetime) (reminder_id : Z)
    : SE database bool :=
  try_except
    (with_connection fails
       (execute (update_attempt now reminder_id) ;;
        ret true))
    (fun _ => ret false).

Definition delete_vitamin (fails : bool) (vitamin_id user_id : Z) : SE database bool :=
  try_except
    (with_connection fails
       (execute (update_is_active vitamin_id user_id) ;;
        ret true))
    (fun _ => ret false).

(** ** config.py

    [validate_config] refuses the token the file ships with, so every
    deployment edits config.py; the options the modelled code reads are the
    fields of a [config]. *)

Record config : Type := mk_config {
  ALLOWED_USERS : list Z;
  REPEAT_REMINDER_INTERVAL : Z;
  MAX_REMINDER_ATTEMPTS : Z;
  ENABLE_REPEAT_REMINDERS : bool
}.

(** The values written in config.py. *)
Definition config_py : config :=
  {| ALLOWED_USERS := [123456789; 987654321];
     REPEAT_REMINDER_INTERVAL := 1800;
     MAX_REMINDER_ATTEMPTS := 3;
     ENABLE_REPEAT_REMINDERS := true |}.

Definition nl : string := String (ascii_of_nat 10) EmptyString.

(** [REMINDER_TEXT.format(vitamin_name=..., reminder_time=...)] *)
Definition REMINDER_TEXT (vitamin_name reminder_time : string) : string :=
  "⏰ Пора принять " +:+ vitamin_name +:+ " в " +:+ reminder_time +:+ "!".

(** [REPEAT_REMINDER_TEXT.format(vitamin_name=..., attempt=..., max_attempts=...)] *)
Definition REPEAT_REMINDER_TEXT (vitamin_name : string) (attempt max_attempts : Z)
    : string :=
  "🔄 Напоминание #" +:+ str_of_int attempt +:+ ": Пора принять " +:+ vitamin_name
  +:+ "! (Попытка " +:+ str_of_int attempt +:+ " из " +:+ str_of_int max_attempts
  +:+ ")".

(** ** Messages, deferred jobs and the world the handlers run in *)

Record InlineKeyboardButton : Type := mk_button {
  button_text : string;
  callback_data : string
}.

Record message : Type := mk_message {
  chat_id : Z;
  text : string;
  reply_markup : list (list InlineKeyboardButton)
}.

(** The keyboard that [send_vitamin_reminder], [send_repeat_reminders] and
    [send_postponed_reminder] each build, with the same four buttons. *)
Definition reminder_keyboard (vitamin_id : Z) : list (list InlineKeyboardButton) :=
  [ [ {| button_text := "✅ Принял";
         callback_data := "taken_" +:+ str_of_int vitamin_id |};
      {| button_text := "⏰ Через 5 мин";
         callback_data := "postpone_5_" +:+ str_of_int vitamin_id |};
      {| button_text := "⏰ Через 10 мин";
         callback_data := "postpone_10_" +:+ str_of_int vitamin_id |};
      {| button_text := "⏰ Через 20 мин";
         callback_data := "postpone_20_" +:+ str_of_int vitamin_id |} ] ].

(** The [data] dictionary of a job scheduled by [handle_callback]. *)
Record job_data : Type := mk_job_data {
  jd_user_id : Z;
  jd_vitamin_id : Z;
  jd_vitamin_name : string;
  jd_reminder_time : string
}.

(** [job_queue.run_once(send_postponed_reminder, when, data=...)]: a job that
    runs [send_postponed_reminder] once, [when] seconds from now. *)
Record job : Type := run_once {
  job_when : Z;
  job_data_of : job_data
}.

Record world : Type := mk_world {
  w_db : database;
  (** [user_states["settings"]], when the key is present: the value of
      ["repeat_reminders"] per user *)
  w_settings : option (gmap Z bool);
  w_jobs : list job;
  (** messages accepted by [context.bot.send_message], oldest first *)
  w_sent : list message;
  (** texts accepted by [query.edit_message_text] and
      [update.message.reply_text], with the user they answer *)
  w_answers : list (Z * string);
  (** whether each coming SQLite or Telegram call fails *)
  w_io : list bool
}.

Definition set_db (d : database) (w : world) : world :=
  {| w_db := d; w_settings := w_settings w; w_jobs := w_jobs w;
     w_sent := w_sent w; w_answers := w_answers w; w_io := w_io w |}.

Definition set_settings (s : option (gmap Z bool)) (w : world) : world :=
  {| w_db := w_db w; w_settings := s; w_jobs := w_jobs w;
     w_sent := w_sent w; w_answers := w_answers w; w_io := w_io w |}.

Definition set_jobs (j : list job) (w : world) : world :=
  {| w_db := w_db w; w_settings := w_settings w; w_jobs := j;
     w_sent := w_sent w; w_answers := w_answers w; w_io := w_io w |}.

Definition set_sent (m : list message) (w : world) : world :=
  {| w_db := w_db w; w_settings := w_settings w; w_jobs := w_jobs w;
     w_sent := m; w_answers := w_answers w; w_io := w_io w |}.

Definition set_answers (a : list (Z * string)) (w : world) : world :=
  {| w_db := w_db w; w_settings := w_settings w; w_jobs := w_jobs w;
     w_sent := w_sent w; w_answers := a; w_io := w_io w |}.

Definition set_io (io : list bool) (w : world) : world :=
  {| w_db := w_db w; w_settings := w_settings w; w_jobs := w_jobs w;
     w_sent := w_sent w; w_answers := w_answers w; w_io := io |}.

(** The outcome of the next I/O call. *)
Definition next_io_fails : SE world bool :=
  fun w => match w_io w with
           | [] => (Return false, w)
           | b :: io => (Return b, set_io io w)
           end.

(** A call of a [db] method from a handler. *)
Definition db_call {A} (method : bool -> SE database A) : SE world A :=
  fails <- next_io_fails ;;
  fun w => let (r, d) := method fails (w_db w) in (r, set_db d w).

(** [await context.bot.send_message(chat_id=..., text=..., reply_markup=...)] *)
Definition send_message (m : message) : SE world unit :=
  fails <- next_io_fails ;;
  if fails : bool then raise TelegramError
  else fun w => (Return tt, set_sent (w_sent w ++ [m]) w).

(** [await query.edit_message_text(t)] and [await update.message.reply_text(t)],
    both answering [user_id] *)
Definition answer_text (user_id : Z) (t : string) : SE world unit :=
  fails <- next_io_fails ;;
  if fails : bool then raise TelegramError
  else fun w => (Return tt, set_answers (w_answers w ++ [(user_id, t)]) w).

Definition edit_message_text := answer_text.
Definition reply_text := answer_text.

(** [await query.answer()] *)
Definition query_answer : SE world unit :=
  fails <- next_io_fails ;;
  if fails : bool then raise TelegramError else ret tt.

(** ** Strings of callback data *)

(** [s.split(sep)] for a separator of one character *)
Fixpoint split (sep : ascii) (s : string) : list string :=
  match s with
  | EmptyString => [EmptyString]
  | String c s' =>
      if Ascii.eqb c sep then EmptyString :: split sep s'
      else match split sep s' with
           | [] => [String c EmptyString]
           | p :: ps => String c p :: ps
           end
  end.

(** [parts[i]] *)
Definition item {S} (parts : list string) (i : nat) : SE S string :=
  match nth_error parts i with
  | Some p => ret p
  | None => raise IndexError
  end.

(** [int(s)] on decimal numerals with an optional minus sign, the numerals
    that the bot writes into callback data.  (Python also accepts a plus
    sign, surrounding blanks and non-ASCII digits; here they raise.) *)
Definition int {S} (s : string) : SE S Z :=
  match NilZero.int_of_string s with
  | Some n => ret (Z.of_int n)
  | None => raise ValueError
  end.

Definition startswith (s p : string) : bool := String.prefix p s.

(** ** Handlers *)

Definition check_user_access (cfg : config) (user_id : Z) : bool :=
  existsb (Z.eqb user_id) (ALLOWED_USERS cfg).

Definition send_postponed_reminder (data : job_data) : SE world unit :=
  let user_id := jd_user_id data in
  let vitamin_id := jd_vitamin_id data in
  let vitamin_name := jd_vitamin_name data in
  let reminder_time := jd_reminder_time data in
  let reply_markup := reminder_keyboard vitamin_id in
  try_except
    (send_message {| chat_id := user_id;
                     text := REMINDER_TEXT vitamin_name reminder_time;
                     reply_markup := reply_markup |})
    (fun _ => ret tt).

(** The branch of [handle_callback] for [data == "toggle_repeat_reminders"] *)
Definition toggle_repeat_reminders (cfg : config) (user_id : Z) : SE world unit :=
  fun w =>
    let settings := default ∅ (w_settings w) in
    let current := default (ENABLE_REPEAT_REMINDERS cfg) (settings !! user_id) in
    let settings := <[user_id := negb current]> settings in
    edit_message_text user_id
      ("Повторные напоминания теперь "
       +:+ (if negb current then "включены" else "выключены") +:+ ".")
      (set_settings (Some settings) w).

(** The branch of [handle_callback] for [data.startswith("postpone_")] *)
Definition handle_postpone (user_id : Z) (data : string) : SE world unit :=
  let parts := split "_" data in
  delay <- (p <- item parts 1 ;; int p) ;;
  vitamin_id <- (p <- item parts 2 ;; int p) ;;
  vitamins <- db_call (fun fails => get_user_vitamins fails user_id) ;;
  match List.find (fun v : vitamin_tuple => fst (fst (fst v)) =? vitamin_id) vitamins with
  | None => edit_message_text user_id "❌ Витамин не найден."
  | Some (_, vitamin_name, reminder_time, _) =>
      (fun w =>
         (Return tt,
          set_jobs (w_jobs w ++
                      [ run_once (delay * 60)
                          {| jd_user_id := user_id; jd_vitamin_id := vitamin_id;
                             jd_vitamin_name := vitamin_name;
                             jd_reminder_time := reminder_time |} ]) w)) ;;
      edit_message_text user_id
        ("⏰ Напоминание отложено на " +:+ str_of_int delay +:+ " минут.")
  end.

Definition handle_callback (cfg : config) (now : datetime) (user_id : Z)
    (data : string) : SE world unit :=
  query_answer ;;
  if negb (check_user_access cfg user_id) then
    edit_message_text user_id "❌ У вас нет доступа к этому боту."
  else if startswith data "taken_" then
    vitamin_id <- (p <- item (split "_" data) 1 ;; int p) ;;
    ok <- db_call (fun fails => log_vitamin_intake fails now vitamin_id user_id "taken") ;;
    if ok : bool then edit_message_text user_id "✅ Отлично! Приём витамина отмечен."
    else edit_message_text user_id "❌ Ошибка при записи. Попробуйте ещё раз."
  else if startswith data "delete_" then
    vitamin_id <- (p <- item (split "_" data) 1 ;; int p) ;;
    ok <- db_call (fun fails => delete_vitamin fails vitamin_id user_id) ;;
    if ok : bool then edit_message_text user_id "🗑️ Витамин удалён."
    else edit_message_text user_id "❌ Ошибка при удалении."
  else if startswith data "postpone_" then
    handle_postpone user_id data
  else if String.eqb data "toggle_repeat_reminders" then
    toggle_repeat_reminders cfg user_id
  else ret tt.

(** *** Statistics *)

(** One more row of [status] in the groups of GROUP BY status. *)
Fixpoint count_status (status : string) (groups : list (string * Z))
    : list (string * Z) :=
  match groups with
  | [] => [(status, 1)]
  | (s, n) :: groups' =>
      if String.eqb s status then (s, n + 1) :: groups'
      else (s, n) :: count_status status groups'
  end.

(** SELECT status, COUNT( * ) FROM vitamin_logs WHERE user_id = ? GROUP BY
    status.  The groups come in the order in which their status first occurs;
    SQL leaves the order open and the program does not depend on it. *)
Definition select_status_counts (user_id : Z) (d : database) : list (string * Z) :=
  fold_left (fun groups l => count_status (log_status l) groups)
    (List.filter (fun l => log_user_id l =? user_id) (vitamin_logs d)) [].

(** [next((count for status, count in stats if status == 'taken'), 0)] *)
Definition next_taken (stats : list (string * Z)) : Z :=
  match List.find (fun g : string * Z => String.eqb (fst g) "taken") stats with
  | Some (_, count) => count
  | None => 0
  end.

Definition statistics_text (taken : Z) : string :=
  "📊 Ваша статистика:" +:+ nl +:+ nl
  +:+ "✅ Принято витаминов: " +:+ str_of_int taken +:+ nl
  +:+ "Всего записей: " +:+ str_of_int taken.

Definition no_statistics_text : string :=
  "📊 У вас пока нет записей о приёме витаминов.".

Definition show_statistics (user_id : Z) : SE world unit :=
  try_except
    (stats <- db_call (fun fails =>
                         with_connection fails (fetch (select_status_counts user_id))) ;;
     match stats with
     | [] => reply_text user_id no_statistics_text
     | _ :: _ =>
         let taken := next_taken stats in
         reply_text user_id (statistics_text taken)
     end)
    (fun _ => reply_text user_id "❌ Ошибка при загрузке статистики. Попробуйте позже.").

(** *** The Evaluator pass *)

(** The body of the inner loop, for one row of [get_user_vitamins]. *)
Definition remind_if_due (now : datetime) (current_time_str : string) (user_id : Z)
    (v : vitamin_tuple) : SE world unit :=
  let '(vitamin_id, name, reminder_time, _) := v in
  if String.eqb reminder_time current_time_str then
    db_call (fun fails => add_active_reminder fails now vitamin_id user_id) ;;
    try_except
      (send_message {| chat_id := user_id;
                       text := REMINDER_TEXT name reminder_time;
                       reply_markup := reminder_keyboard vitamin_id |})
      (fun _ => ret tt)
  else ret tt.

Definition send_vitamin_reminder (cfg : config) (now : datetime) : SE world unit :=
  let current_time_str := strftime_HM now in
  for_each
    (fun user_id =>
       vitamins <- db_call (fun fails => get_user_vitamins fails user_id) ;;
       for_each (remind_if_due now current_time_str user_id) vitamins)
    (ALLOWED_USERS cfg).

(** *** The Escalation pass *)

(** [datetime.fromisoformat(x)] for [x] a [datetime] object: the method takes
    a [str] and raises [TypeError] ("fromisoformat: argument must be str")
    for anything else. *)
Definition fromisoformat_of_datetime {S} (x : datetime) : SE S datetime :=
  raise TypeError.

(** The test on [user_states] that opens the loop body. *)
Definition repeat_reminders_enabled (cfg : config) (settings : option (gmap Z bool))
    (user_id : Z) : bool :=
  match settings with
  | Some s => match s !! user_id with
              | Some enabled => enabled
              | None => ENABLE_REPEAT_REMINDERS cfg
              end
  | None => ENABLE_REPEAT_REMINDERS cfg
  end.

(** The test [current_time - last_time >= timedelta(seconds=
    REPEAT_REMINDER_INTERVAL) and attempts < MAX_REMINDER_ATTEMPTS]. *)
Definition repeat_due (cfg : config) (current_time last_time : datetime)
    (attempts : Z) : bool :=
  (timedelta_seconds (REPEAT_REMINDER_INTERVAL cfg) <=? datetime_sub current_time last_time)
  && (attempts <? MAX_REMINDER_ATTEMPTS cfg).

(** The body of the inner loop once [last_time] is known. *)
Definition repeat_reminder (cfg : config) (now : datetime) (user_id : Z)
    (reminder_id vitamin_id : Z) (vitamin_name : string) (attempts : Z)
    (last_time : datetime) : SE world unit :=
  let current_time := now in
  if repeat_due cfg current_time last_time attempts then
    db_call (fun fails => update_reminder_attempt fails now reminder_id) ;;
    try_except
      (send_message
         {| chat_id := user_id;
            text := REPEAT_REMINDER_TEXT vitamin_name (attempts + 1)
                      (MAX_REMINDER_ATTEMPTS cfg);
            reply_markup := reminder_keyboard vitamin_id |})
      (fun _ => ret tt)
  else ret tt.

Section Escalation.

(** [pytz.timezone("America/Chicago")], used as the [tzinfo] of [replace] *)
Variable chicago_tz : tzinfo.

Definition send_repeat_reminders (cfg : config) (now : datetime) : SE world unit :=
  for_each
    (fun user_id =>
       settings <- (fun w => (Return (w_settings w), w)) ;;
       if negb (repeat_reminders_enabled cfg settings user_id) then ret tt
       else
         reminders <- db_call (fun fails => get_active_reminders fails now user_id) ;;
         for_each
           (fun r : reminder_tuple =>
              let '(reminder_id, vitamin_id, vitamin_name, attempts, last_reminder) := r in
              parsed <- fromisoformat_of_datetime last_reminder ;;
              let last_time := replace_tzinfo parsed chicago_tz in
              repeat_reminder cfg now user_id reminder_id vitamin_id vitamin_name
                attempts last_time)
           reminders)
    (ALLOWED_USERS cfg).

End Escalation.

(** ** The text handlers and the "add item" dialogue *)

(** [config.WELCOME_TEXT] *)
Definition WELCOME_TEXT : string :=
  "Добро пожаловать в бот для отслеживания приёма витаминов!" +:+ nl +:+ nl
  +:+ "Используйте кнопки ниже для управления витаминами.".

Definition no_access_text : string := "❌ У вас нет доступа к этому боту.".

(** [start]; the reply keyboard with the four menu buttons is not kept in
    [w_answers]. *)
Definition start (cfg : config) (user_id : Z) : SE world unit :=
  if negb (check_user_access cfg user_id) then reply_text user_id no_access_text
  else reply_text user_id WELCOME_TEXT.

(** The text and the inline keyboard that the loop of [show_vitamins] builds. *)
Definition vitamins_text (vitamins : list vitamin_tuple) : string :=
  fold_left
    (fun text (v : vitamin_tuple) =>
       let '(_, name, reminder_time, _) := v in
       text +:+ "• " +:+ name +:+ " - " +:+ reminder_time +:+ nl)
    vitamins ("💊 Ваши витамины:" +:+ nl +:+ nl).

Definition vitamins_keyboard (vitamins : list vitamin_tuple)
    : list (list InlineKeyboardButton) :=
  List.flat_map
    (fun v : vitamin_tuple =>
       let '(vitamin_id, name, _, _) := v in
       [ [ {| button_text := "✅ Принял " +:+ name;
              callback_data := "taken_" +:+ str_of_int vitamin_id |} ];
         [ {| button_text := "❌ Удалить " +:+ name;
              callback_data := "delete_" +:+ str_of_int vitamin_id |} ] ])
    vitamins.

Definition no_vitamins_text : string :=
  "📝 У вас пока нет добавленных витаминов." +:+ nl
  +:+ "Используйте кнопку '➕ Добавить витамин'".

(** [show_vitamins]; the inline keyboard sent with the list is
    [vitamins_keyboard vitamins]. *)
Definition show_vitamins (user_id : Z) : SE world unit :=
  vitamins <- db_call (fun fails => get_user_vitamins fails user_id) ;;
  match vitamins with
  | [] => reply_text user_id no_vitamins_text
  | _ :: _ => reply_text user_id (vitamins_text vitamins)
  end.

(** [show_settings]: the user's entry of [user_states["settings"]] is created
    with the configured default before it is read. *)
Definition show_settings (cfg : config) (user_id : Z) : SE world unit :=
  fun w =>
    let settings := default ∅ (w_settings w) in
    let settings :=
      match settings !! user_id with
      | Some _ => settings
      | None => <[user_id := ENABLE_REPEAT_REMINDERS cfg]> settings
      end in
    let repeat_reminders := default (ENABLE_REPEAT_REMINDERS cfg) (settings !! user_id) in
    reply_text user_id
      ("⚙️ Ваши настройки:" +:+ nl +:+ nl
       +:+ "Повторные напоминания: "
       +:+ (if repeat_reminders : bool then "Вкл" else "Выкл") +:+ nl)
      (set_settings (Some settings) w).

(** *** [datetime.strptime(text, "%H:%M")]

    The format compiles to the pattern (2[0-3]|[0-1]\d|\d):([0-5]\d|\d),
    which has to match the whole text.  On ASCII text \d is a digit from 0
    to 9 (Python lets it match other decimal digits as well; here those
    texts raise). *)

Definition is_digit (c : ascii) : bool :=
  (48 <=? nat_of_ascii c)%nat && (nat_of_ascii c <=? 57)%nat.

Definition digit_value (c : ascii) : Z := Z.of_nat (nat_of_ascii c) - 48.

(** 2[0-3]|[0-1]\d|\d *)
Definition match_H (s : string) : option Z :=
  match s with
  | String a (String b EmptyString) =>
      if (Ascii.eqb a "2" && is_digit b && (digit_value b <=? 3))
         || ((Ascii.eqb a "0" || Ascii.eqb a "1") && is_digit b)
      then Some (10 * digit_value a + digit_value b) else None
  | String a EmptyString => if is_digit a then Some (digit_value a) else None
  | _ => None
  end.

(** [0-5]\d|\d *)
Definition match_M (s : string) : option Z :=
  match s with
  | String a (String b EmptyString) =>
      if is_digit a && (digit_value a <=? 5) && is_digit b
      then Some (10 * digit_value a + digit_value b) else None
  | String a EmptyString => if is_digit a then Some (digit_value a) else None
  | _ => None
  end.

(** The hour and the minute of [datetime.strptime(text, "%H:%M").time()], or
    [ValueError]. *)
Definition strptime_HM {S} (text : string) : SE S (Z * Z) :=
  match split ":" text with
  | [hs; ms] =>
      match match_H hs, match_M ms with
      | Some h, Some m => ret (h, m)
      | _, _ => raise ValueError
      end
  | _ => raise ValueError
  end.

(** [try: body  except ValueError: handler] *)
Definition try_except_ValueError {S A} (body : SE S A) (handler : SE S A) : SE S A :=
  fun s => match body s with
           | (Raise ValueError, s') => handler s'
           | r => r
           end.

(** *** The dialogue state

    [user_states[user_id]] of a user who is adding an item is
    [{"step": "name"}] and then [{"step": "time", "name": name}]. *)
Inductive wizard : Type :=
| step_name
| step_time (name : string).

(** The world together with the per-user entries of [user_states]. *)
Record session : Type := mk_session {
  s_world : world;
  s_wizard : gmap Z wizard
}.

Definition in_world {A} (m : SE world A) : SE session A :=
  fun s => let (r, w) := m (s_world s) in
           (r, {| s_world := w; s_wizard := s_wizard s |}).

Definition set_wizard (f : gmap Z wizard -> gmap Z wizard) : SE session unit :=
  fun s => (Return tt, {| s_world := s_world s; s_wizard := f (s_wizard s) |}).

(** [add_vitamin_start] *)
Definition add_vitamin_start (user_id : Z) : SE session unit :=
  set_wizard (fun states => <[user_id := step_name]> states) ;;
  in_world (reply_text user_id "💊 Введите название витамина:").

(** [schedule_vitamin_reminder]: its body is [pass]. *)
Definition schedule_vitamin_reminder (user_id : Z) (vitamin_name : string)
    (reminder_time : Z * Z) : SE session unit :=
  ret tt.

Definition bad_time_text : string :=
  "❌ Неверный формат времени. Используйте ЧЧ:ММ (например, 09:00)".

(** [handle_user_input] *)
Definition handle_user_input (user_id : Z) (text : string) : SE session unit :=
  fun s =>
    match s_wizard s !! user_id with
    | Some step_name =>
        (set_wizard (fun states => <[user_id := step_time text]> states) ;;
         in_world
           (reply_text user_id
              ("⏰ Введите время напоминания для '" +:+ text +:+ "' в формате ЧЧ:ММ"
               +:+ nl +:+ "Например: 09:00 или 18:30"))) s
    | Some (step_time name) =>
        try_except_ValueError
          (time_obj <- strptime_HM text ;;
           ok <- in_world (db_call (fun fails => add_vitamin fails user_id name text)) ;;
           if ok : bool then
             in_world
               (reply_text user_id
                  ("✅ Витамин '" +:+ name +:+ "' добавлен!" +:+ nl
                   +:+ "Напоминание установлено на " +:+ text)) ;;
             set_wizard (fun states => delete user_id states) ;;
             schedule_vitamin_reminder user_id name time_obj
           else
             in_world
               (reply_text user_id
                  "❌ Ошибка при добавлении витамина. Попробуйте ещё раз.") ;;
             set_wizard (fun states => delete user_id states))
          (in_world (reply_text user_id bad_time_text)) s
    | None => (Return tt, s)
    end.

(** [handle_message] *)
Definition handle_message (cfg : config) (user_id : Z) (text : string)
    : SE session unit :=
  if negb (check_user_access cfg user_id) then
    in_world (reply_text user_id no_access_text)
  else if String.eqb text "💊 Мои витамины" then in_world (show_vitamins user_id)
  else if String.eqb text "➕ Добавить витамин" then add_vitamin_start user_id
  else if String.eqb text "📊 Статистика" then in_world (show_statistics user_id)
  else if String.eqb text "⚙️ Настройки" then in_world (show_settings cfg user_id)
  else
    fun s =>
      match s_wizard s !! user_id with
      | Some _ => handle_user_input user_id text s
      | None =>
          in_world (reply_text user_id "Используйте кнопки меню для навигации.") s
      end.

(** ** config.validate_config and the log filter *)

Definition token_placeholder : string := "YOUR_BOT_TOKEN_HERE".

(** [validate_config], with [BOT_TOKEN] and [DATABASE_PATH] as arguments *)
Definition validate_config (BOT_TOKEN : string) (cfg : config)
    (DATABASE_PATH : string) : list string :=
  (if String.eqb BOT_TOKEN "" || String.eqb BOT_TOKEN token_placeholder
   then ["Токен бота не указан или не заменён в config.py"] else [])
  ++ (match ALLOWED_USERS cfg with
      | [] => ["Список разрешённых пользователей пуст"]
      | _ :: _ => []
      end)
  ++ (if String.eqb DATABASE_PATH "" then ["Путь к базе данных не указан"] else []).

(** [s.replace(old, new)] for a non-empty [old]: the occurrences of [old]
    are found from the left and do not overlap.  [skip] counts the characters
    of the occurrence just replaced that are still to be passed over. *)
Fixpoint replace_skip (old new : string) (skip : nat) (s : string) : string :=
  match s with
  | EmptyString => EmptyString
  | String c s' =>
      match skip with
      | S k => replace_skip old new k s'
      | O =>
          if String.prefix old s
          then new +:+ replace_skip old new (String.length old - 1) s'
          else String c (replace_skip old new 0 s')
      end
  end.

Definition replace (old new s : string) : string := replace_skip old new 0 s.

(** [TokenFilter.filter]: the value returned and the new [record.msg] *)
Definition TokenFilter_filter (token msg : string) : bool * string :=
  (true,
   match token with
   | EmptyString => msg
   | String _ _ => replace token "[HIDDEN_TOKEN]" msg
   end).

(** ** Vocabulary of the properties *)

(** The store methods that write, as values, so that sequences of calls can
    be quantified over. *)
Inductive operation : Type :=
| op_add_vitamin (fails : bool) (user_id : Z) (name reminder_time : string)
| op_log_vitamin_intake (fails : bool) (now : datetime) (vitamin_id user_id : Z)
    (status : string)
| op_add_active_reminder (fails : bool) (now : datetime) (vitamin_id user_id : Z)
| op_update_reminder_attempt (fails : bool) (now : datetime) (reminder_id : Z)
| op_delete_vitamin (fails : bool) (vitamin_id user_id : Z).

Definition run_operation (op : operation) : SE database bool :=
  match op with
  | op_add_vitamin fails user_id name reminder_time =>
      add_vitamin fails user_id name reminder_time
  | op_log_vitamin_intake fails now vitamin_id user_id status =>
      log_vitamin_intake fails now vitamin_id user_id status
  | op_add_active_reminder fails now vitamin_id user_id =>
      add_active_reminder fails now vitamin_id user_id
  | op_update_reminder_attempt fails now reminder_id =>
      update_reminder_attempt fails now reminder_id
  | op_delete_vitamin fails vitamin_id user_id =>
      delete_vitamin fails vitamin_id user_id
  end.

(** What can happen to a running bot: a direct call of a store method, a tick
    of either pass, a button press, a statistics request, a deferred job
    coming due.  Each event comes with the outcomes of the I/O calls made
    while it is handled. *)
Inductive event : Type :=
| ev_call (op : operation)
| ev_send_vitamin_reminder (now : datetime)
| ev_send_repeat_reminders (now : datetime)
| ev_handle_callback (now : datetime) (user_id : Z) (data : string)
| ev_show_statistics (user_id : Z)
| ev_send_postponed_reminder (data : job_data).

Definition handle (chicago_tz : tzinfo) (cfg : config) (e : event) : SE world unit :=
  match e with
  | ev_call op =>
      fun w => let (_, d) := run_operation op (w_db w) in (Return tt, set_db d w)
  | ev_send_vitamin_reminder now => send_vitamin_reminder cfg now
  | ev_send_repeat_reminders now => send_repeat_reminders chicago_tz cfg now
  | ev_handle_callback now user_id data => handle_callback cfg now user_id data
  | ev_show_statistics user_id => show_statistics user_id
  | ev_send_postponed_reminder data => send_postponed_reminder data
  end.

Definition run_events (chicago_tz : tzinfo) (cfg : config)
    (events : list (event * list bool)) (w : world) : world :=
  fold_left (fun w e => state_of (handle chicago_tz cfg (fst e) (set_io (snd e) w)))
    events w.

(** The bot at start-up, on a fresh database file. *)
Definition init_world : world :=
  {| w_db := init_database; w_settings := None; w_jobs := []; w_sent := [];
     w_answers := []; w_io := [] |}.

(** At most one reminder record per (item, owner, date). *)
Definition one_reminder_per_day (d : database) : Prop :=
  forall vitamin_id user_id day,
    (length (List.filter (reminder_for vitamin_id user_id day) (active_reminders d))
     <= 1)%nat.

(** The number of [user_id]'s log rows whose status is ['taken']. *)
Definition count_taken (user_id : Z) (d : database) : Z :=
  Z.of_nat (length (List.filter
                      (fun l => (log_user_id l =? user_id) && String.eqb (log_status l) "taken")
                      (vitamin_logs d))).

(** The notification of the Evaluator pass for one row of [get_user_vitamins]. *)
Definition reminder_message (user_id : Z) (v : vitamin_tuple) : message :=
  let '(vitamin_id, name, reminder_time, _) := v in
  {| chat_id := user_id;
     text := REMINDER_TEXT name reminder_time;
     reply_markup := reminder_keyboard vitamin_id |}.

(** The active items of [user_id] whose time string is the current minute. *)
Definition due_vitamins (now : datetime) (user_id : Z) (d : database)
    : list vitamin_tuple :=
  List.filter (fun v : vitamin_tuple => String.eqb (snd (fst v)) (strftime_HM now))
    (select_user_vitamins user_id d).

(** The notifications of one Evaluator pass, in the order of the loops. *)
Definition due_messages (cfg : config) (now : datetime) (d : database) : list message :=
  List.flat_map
    (fun user_id => List.map (reminder_message user_id) (due_vitamins now user_id d))
    (ALLOWED_USERS cfg).

(** The store after [add_active_reminder] has run without failure for each
    row of [due], in order. *)
Definition raise_reminders (now : datetime) (user_id : Z) (due : list vitamin_tuple)
    (d : database) : database :=
  fold_left
    (fun d v => state_of (add_active_reminder false now (fst (fst (fst v))) user_id d))
    due d.

(** The world after the inner loop of the Evaluator has handled the rows
    [due] of [user_id] without a failing call. *)
Definition after_reminders (now : datetime) (user_id : Z) (due : list vitamin_tuple)
    (w : world) : world :=
  set_sent (w_sent w ++ List.map (reminder_message user_id) due)
    (set_db (raise_reminders now user_id due (w_db w)) w).

(** The store holds a reminder record for (item, owner, date). *)
Definition has_reminder (vitamin_id user_id day : Z) (d : database) : Prop :=
  exists r, In r (active_reminders d) /\ reminder_for vitamin_id user_id day r = true.

(** [c in s] *)
Fixpoint has_char (c : ascii) (s : string) : bool :=
  match s with
  | EmptyString => false
  | String a s' => Ascii.eqb a c || has_char c s'
  end.

(** The worlds that differ from [w] in the pending I/O outcomes only. *)
Definition same_but_io (w w' : world) : Prop := exists io, w' = set_io io w.

(** *** A scenario: the item "Vitamin D" of one allowed user, due at 09:00 *)

Definition owner : Z := 123456789.

(** The wall clock [seconds] after 09:00 on day 20000, at UTC-6. *)
Definition at_0900 (seconds : Z) : datetime :=
  {| wall := (20000 * 86400 + 9 * 3600 + seconds) * 1000000;
     utcoffset := - (6 * 3600 * 1000000) |}.

Definition world_of (d : database) : world :=
  {| w_db := d; w_settings := None; w_jobs := []; w_sent := []; w_answers := [];
     w_io := [] |}.

Definition vitamin_D_added : database :=
  state_of (add_vitamin false owner "Vitamin D" "09:00" init_database).

(** The first tick of the Evaluator within 09:00. *)
Definition reminded_at_0900 : world :=
  state_of (send_vitamin_reminder config_py (at_0900 10) (world_of vitamin_D_added)).

(** The record of the item after three escalations, the last one at 10:30. *)
Definition capped_record : active_reminder :=
  {| rem_id := 1; rem_vitamin_id := 1; rem_user_id := owner;
     rem_reminder_date := 20000; rem_last_reminder := at_0900 5410;
     rem_attempts := 3 |}.

Definition capped_at_1030 : world :=
  world_of
    (update_attempt (at_0900 5410) 1
       (update_attempt (at_0900 3610) 1
          (update_attempt (at_0900 1810) 1 (w_db reminded_at_0900)))).

(** A computation leaves a property of the database standing. *)
Definition preserves {A} (P : database -> Prop) (m : SE world A) : Prop :=
  forall w, P (w_db w) -> P (w_db (state_of (m w))).

(** The rows that the Escalation pass reads: today's reminder rows of the
    allowed users for whom repeat reminders are enabled, in loop order. *)
Definition escalation_rows (cfg : config) (now : datetime) (w : world)
    : list reminder_tuple :=
  List.flat_map
    (fun user_id =>
       if repeat_reminders_enabled cfg (w_settings w) user_id
       then select_active_reminders user_id (date_of now) (w_db w)
       else [])
    (ALLOWED_USERS cfg).

(** The exceptions that can leave a computation are among [E]. *)
Definition raises_only {S A} (E : exn -> Prop) (m : SE S A) : Prop :=
  forall s e, result (m s) = Raise e -> E e.

(** The message that a deferred job sends. *)
Definition postponed_message (data : job_data) : message :=
  {| chat_id := jd_user_id data;
     text := REMINDER_TEXT (jd_vitamin_name data) (jd_reminder_time data);
     reply_markup := reminder_keyboard (jd_vitamin_id data) |}.

(** A session in which nobody is adding an item. *)
Definition session_of (w : world) : session :=
  {| s_world := w; s_wizard := ∅ |}.

(** [w'] is [w] with at most the no-access answer to [user_id] added (and
    I/O outcomes used up). *)
Definition refused (user_id : Z) (w w' : world) : Prop :=
  w_db w' = w_db w /\ w_settings w' = w_settings w /\ w_jobs w' = w_jobs w
  /\ w_sent w' = w_sent w
  /\ (w_answers w' = w_answers w
      \/ w_answers w' = w_answers w ++ [(user_id, no_access_text)]).

(** [strptime] reads [text] as the hour [h] and the minute [m], and [text]
    has [n] characters. *)
Definition reads_as (text : string) (h m : nat) (n : nat) : bool :=
  match @strptime_HM unit text tt with
  | (Return (h', m'), _) =>
      (h' =? Z.of_nat h) && (m' =? Z.of_nat m) && (String.length text =? n)%nat
  | (Raise _, _) => false
  end.

(** [text.isascii()]: every character of [text] is below 128.  On these
    texts \d of the pattern of [strptime_HM] is a digit from 0 to 9 for Python
    as well. *)
Definition isascii (text : string) : bool :=
  forallb (fun c => (nat_of_ascii c <? 128)%nat) (list_ascii_of_string text).

(** [text] is one of the four menu labels that [handle_message] routes. *)
Definition is_menu_text (text : string) : bool :=
  String.eqb text "💊 Мои витамины" || String.eqb text "➕ Добавить витамин"
  || String.eqb text "📊 Статистика" || String.eqb text "⚙️ Настройки".

(** The three messages of the "add item" dialogue, one after the other. *)
Definition add_item_dialogue (cfg : config) (user_id : Z) (name text : string)
    : SE session unit :=
  handle_message cfg user_id "➕ Добавить витамин" ;;
  handle_message cfg user_id name ;;
  handle_message cfg user_id text.

(** [t in s] for strings *)
Fixpoint contains (t s : string) : bool :=
  String.prefix t s
  || match s with
     | EmptyString => false
     | String _ s' => contains t s'
     end.

(** What identifies an item and is shown to its owner. *)
Definition vit_identity (v : vitamin) : Z * Z * string * string :=
  (vit_id v, vit_user_id v, vit_name v, vit_reminder_time v).

(** [d] continues the history of [d0]: its log rows and its items are those
    of [d0], in place and with the same id, owner, name and time, followed by
    new ones; and the items that were inactive in [d0] are unchanged. *)
Definition extends (d0 d : database) : Prop :=
  (exists l, vitamin_logs d = vitamin_logs d0 ++ l)
  /\ (exists l, List.map vit_identity (vitamins d)
                = List.map vit_identity (vitamins d0) ++ l)
  /\ (forall i v, nth_error (vitamins d0) i = Some v -> vit_is_active v = false ->
                  nth_error (vitamins d) i = Some v).

(** What the store holds for one user: the active items, the reminder
    records and the log rows. *)
Definition user_view (user_id : Z) (d : database)
    : list vitamin_tuple * list active_reminder * list vitamin_log :=
  (select_user_vitamins user_id d,
   List.filter (fun r => rem_user_id r =? user_id) (active_reminders d),
   List.filter (fun l => log_user_id l =? user_id) (vitamin_logs d)).

(** * Properties *)

(** ** The store methods, equation by equation *)

Lemma add_vitamin_ok user_id name reminder_time d :
  add_vitamin false user_id name reminder_time d
  = (Return true, insert_vitamin user_id name reminder_time d).
Proof. reflexivity. Qed.

Lemma log_vitamin_intake_ok now vitamin_id user_id status d :
  log_vitamin_intake false now vitamin_id user_id status d
  = (Return true,
     if String.eqb status "taken"
     then delete_active_reminder vitamin_id user_id (date_of now)
            (insert_vitamin_log vitamin_id user_id status d)
     else insert_vitamin_log vitamin_id user_id status d).
Proof.
  unfold log_vitamin_intake, try_except, with_connection, bind, execute, ret.
  destruct (String.eqb status "taken"); reflexivity.
Qed.

Lemma add_active_reminder_ok now vitamin_id user_id d :
  add_active_reminder false now vitamin_id user_id d
  = (Return true,
     match select_reminder_id vitamin_id user_id (date_of now) d with
     | None => insert_active_reminder vitamin_id user_id (date_of now) now d
     | Some _ => d
     end).
Proof.
  unfold add_active_reminder, try_except, with_connection, bind, fetch, execute, ret.
  destruct (select_reminder_id vitamin_id user_id (date_of now) d); reflexivity.
Qed.

Lemma update_reminder_attempt_ok now reminder_id d :
  update_reminder_attempt false now reminder_id d
  = (Return true, update_attempt now reminder_id d).
Proof. reflexivity. Qed.

Lemma delete_vitamin_ok vitamin_id user_id d :
  delete_vitamin false vitamin_id user_id d
  = (Return true, update_is_active vitamin_id user_id d).
Proof. reflexivity. Qed.

Lemma get_user_vitamins_ok user_id d :
  get_user_vitamins false user_id d = (Return (select_user_vitamins user_id d), d).
Proof. reflexivity. Qed.

Lemma get_active_reminders_ok now user_id d :
  get_active_reminders false now user_id d
  = (Return (select_active_reminders user_id (date_of now) d), d).
Proof. reflexivity. Qed.

(** A failed SQLite call is caught by the writing methods: they answer
    [False] and the rolled-back store is the one they started from. *)
Lemma run_operation_failed op d :
  match op with
  | op_add_vitamin f _ _ _ | op_log_vitamin_intake f _ _ _ _
  | op_add_active_reminder f _ _ _ | op_update_reminder_attempt f _ _
  | op_delete_vitamin f _ _ => f
  end = true ->
  run_operation op d = (Return false, d).
Proof. destruct op; simpl; intros ->; reflexivity. Qed.

(** The reading methods never change the store, whether they fail or not. *)
Lemma get_user_vitamins_state fails user_id d :
  state_of (get_user_vitamins fails user_id d) = d.
Proof. destruct fails; reflexivity. Qed.

Lemma get_active_reminders_state fails now user_id d :
  state_of (get_active_reminders fails now user_id d) = d.
Proof. destruct fails; reflexivity. Qed.

(** ** Filters over the reminder table *)

Lemma find_none_filter_nil {A} (p : A -> bool) (l : list A) :
  List.find p l = None -> List.filter p l = [].
Proof.
  induction l as [|x l IH]; simpl; [reflexivity|].
  destruct (p x); [discriminate | exact IH].
Qed.

Lemma filter_nil_find_none {A} (p : A -> bool) (l : list A) :
  List.filter p l = [] -> List.find p l = None.
Proof.
  induction l as [|x l IH]; simpl; [reflexivity|].
  destruct (p x); [discriminate | exact IH].
Qed.

Lemma filter_all_true {A} (p : A -> bool) (l : list A) :
  (forall x, In x l -> p x = true) -> List.filter p l = l.
Proof.
  induction l as [|x l IH]; simpl; intros H; [reflexivity|].
  rewrite (H x) by (left; reflexivity).
  f_equal. apply IH. intros y Hy. apply H. right. exact Hy.
Qed.

Lemma filter_filter_length {A} (p q : A -> bool) (l : list A) :
  (length (List.filter p (List.filter q l)) <= length (List.filter p l))%nat.
Proof.
  induction l as [|x l IH]; simpl; [lia|].
  destruct (q x); simpl; destruct (p x); simpl; lia.
Qed.

Lemma filter_map_commute {A} (p : A -> bool) (f : A -> A) (l : list A) :
  (forall x, p (f x) = p x) ->
  List.filter p (List.map f l) = List.map f (List.filter p l).
Proof.
  intros H. induction l as [|x l IH]; simpl; [reflexivity|].
  rewrite H. destruct (p x); simpl; rewrite IH; reflexivity.
Qed.

Lemma reminder_for_bump now vitamin_id user_id day reminder_id r :
  reminder_for vitamin_id user_id day
    (if rem_id r =? reminder_id then bump now r else r)
  = reminder_for vitamin_id user_id day r.
Proof. destruct (rem_id r =? reminder_id); reflexivity. Qed.

Lemma select_reminder_id_none vitamin_id user_id day d :
  select_reminder_id vitamin_id user_id day d = None ->
  List.filter (reminder_for vitamin_id user_id day) (active_reminders d) = [].
Proof.
  unfold select_reminder_id. intros H. apply find_none_filter_nil.
  destruct (List.find _ _); [discriminate | reflexivity].
Qed.

(** ** One reminder record per (item, owner, date) *)

Lemma one_reminder_per_day_init : one_reminder_per_day init_database.
Proof. intros v u day. simpl. lia. Qed.

Lemma insert_active_reminder_unique now vitamin_id user_id d :
  one_reminder_per_day d ->
  select_reminder_id vitamin_id user_id (date_of now) d = None ->
  one_reminder_per_day
    (insert_active_reminder vitamin_id user_id (date_of now) now d).
Proof.
  intros Hd Hnone v u day. simpl.
  rewrite List.filter_app, length_app. simpl.
  destruct (reminder_for v u day _) eqn:E; simpl.
  - assert (Hk : v = vitamin_id /\ u = user_id /\ day = date_of now).
    { revert E. unfold reminder_for. simpl.
      rewrite !andb_true_iff, !Z.eqb_eq. intuition congruence. }
    destruct Hk as (-> & -> & ->).
    rewrite (select_reminder_id_none _ _ _ _ Hnone). simpl. lia.
  - specialize (Hd v u day). lia.
Qed.

Lemma delete_active_reminder_unique vitamin_id user_id day d :
  one_reminder_per_day d ->
  one_reminder_per_day (delete_active_reminder vitamin_id user_id day d).
Proof.
  intros Hd v u day'. simpl.
  eapply Nat.le_trans; [apply filter_filter_length | apply Hd].
Qed.

Lemma update_attempt_unique now reminder_id d :
  one_reminder_per_day d -> one_reminder_per_day (update_attempt now reminder_id d).
Proof.
  intros Hd v u day. simpl.
  rewrite filter_map_commute by (intros r; apply reminder_for_bump).
  rewrite length_map. apply Hd.
Qed.

Lemma run_operation_unique op d :
  one_reminder_per_day d -> one_reminder_per_day (state_of (run_operation op d)).
Proof.
  intros Hd. destruct op as [f ? ? ?|f ? ? ? ?|f ? ? ?|f ? ?|f ? ?];
    destruct f; try exact Hd; simpl run_operation.
  - rewrite log_vitamin_intake_ok. unfold state_of; simpl.
    destruct (String.eqb status "taken").
    + apply delete_active_reminder_unique. exact Hd.
    + exact Hd.
  - rewrite add_active_reminder_ok. unfold state_of; simpl.
    destruct (select_reminder_id _ _ _ d) eqn:E; [exact Hd|].
    apply insert_active_reminder_unique; assumption.
  - apply update_attempt_unique. exact Hd.
Qed.

(** ** UpsertReminderRecord *)

(** C2, as amended: [add_active_reminder] answers [True] whenever its SQLite
    calls succeed, both when it inserts the record for (item, owner, today)
    and when it finds one and leaves the store alone; it answers [False] only
    when a SQLite call failed, and then the store is unchanged. *)
Theorem add_active_reminder_reports_success now vitamin_id user_id d :
  let today := date_of now in
  add_active_reminder true now vitamin_id user_id d = (Return false, d)
  /\ result (add_active_reminder false now vitamin_id user_id d) = Return true
  /\ state_of (add_active_reminder false now vitamin_id user_id d)
     = match List.find (reminder_for vitamin_id user_id today) (active_reminders d) with
       | Some _ => d
       | None => insert_active_reminder vitamin_id user_id today now d
       end.
Proof.
  cbv zeta. split; [reflexivity|].
  rewrite add_active_reminder_ok. unfold result, state_of, select_reminder_id; simpl.
  split; [reflexivity|].
  destruct (List.find _ _); reflexivity.
Qed.

(** C2 fails as stated: with a record for (1, 7, today) in the store,
    [add_active_reminder] creates nothing and still answers [True]. *)
Lemma add_active_reminder_true_without_creating :
  let now := {| wall := 1728032410000000; utcoffset := -21600000000 |} in
  let d := insert_active_reminder 1 7 (date_of now) now init_database in
  add_active_reminder false now 1 7 d = (Return true, d).
Proof. reflexivity. Qed.

(** ** RecordIntake *)

(** C4: [log_vitamin_intake] appends exactly one log row; with status
    ['taken'] the same transaction deletes the records of (item, owner,
    today) and no other; without such a record the log row is its only effect;
    a second acknowledgment leaves the reminder table as the first one left
    it.  When SQLite fails, neither the row nor the deletion happens. *)
Theorem log_vitamin_intake_appends_and_clears now vitamin_id user_id status d :
  let today := date_of now in
  let d' := state_of (log_vitamin_intake false now vitamin_id user_id status d) in
  result (log_vitamin_intake false now vitamin_id user_id status d) = Return true
  /\ vitamin_logs d'
     = vitamin_logs d ++ [ {| log_id := seq_vitamin_logs d + 1;
                              log_vitamin_id := vitamin_id;
                              log_user_id := user_id; log_status := status |} ]
  /\ vitamins d' = vitamins d
  /\ active_reminders d'
     = (if String.eqb status "taken"
        then List.filter (fun r => negb (reminder_for vitamin_id user_id today r))
               (active_reminders d)
        else active_reminders d)
  /\ (status = "taken" ->
      List.find (reminder_for vitamin_id user_id today) (active_reminders d') = None)
  /\ (List.find (reminder_for vitamin_id user_id today) (active_reminders d) = None ->
      active_reminders d' = active_reminders d)
  /\ active_reminders
       (state_of (log_vitamin_intake false now vitamin_id user_id status d'))
     = active_reminders d'
  /\ log_vitamin_intake true now vitamin_id user_id status d = (Return false, d).
Proof.
  cbv zeta. rewrite !log_vitamin_intake_ok. unfold result, state_of; simpl.
  split; [reflexivity|].
  split; [destruct (String.eqb status "taken"); reflexivity|].
  split; [destruct (String.eqb status "taken"); reflexivity|].
  split; [destruct (String.eqb status "taken"); reflexivity|].
  split.
  { intros ->. simpl. apply filter_nil_find_none.
    induction (active_reminders d) as [|r l IH]; simpl; [reflexivity|].
    destruct (reminder_for vitamin_id user_id (date_of now) r) eqn:E; simpl;
      [exact IH | rewrite E; exact IH]. }
  split.
  { intros Hnone. destruct (String.eqb status "taken"); [|reflexivity]. simpl.
    apply filter_all_true. intros r Hr.
    destruct (reminder_for vitamin_id user_id (date_of now) r) eqn:E; [|reflexivity].
    exfalso. apply find_none_filter_nil in Hnone.
    assert (Hin : In r (List.filter (reminder_for vitamin_id user_id (date_of now))
                          (active_reminders d)))
      by (apply List.filter_In; split; assumption).
    rewrite Hnone in Hin. destruct Hin. }
  split; [|reflexivity].
  destruct (String.eqb status "taken"); simpl; [|reflexivity].
  apply filter_all_true. intros r Hr.
  apply List.filter_In in Hr. apply Hr.
Qed.

Lemma log_vitamin_intake_appends_and_clears_witness :
  let now := {| wall := 1728032410000000; utcoffset := -21600000000 |} in
  let d := insert_active_reminder 1 7 (date_of now) now init_database in
  List.find (reminder_for 1 7 (date_of now))
    (active_reminders (state_of (log_vitamin_intake false now 1 7 "taken" d))) = None
  /\ active_reminders
       (state_of (log_vitamin_intake false now 1 7 "taken" init_database))
     = active_reminders init_database.
Proof.
  intros now d. split.
  - pose proof (log_vitamin_intake_appends_and_clears now 1 7 "taken" d) as H.
    cbv zeta in H. destruct H as (_ & _ & _ & _ & H & _). apply H. reflexivity.
  - pose proof (log_vitamin_intake_appends_and_clears now 1 7 "taken" init_database) as H.
    cbv zeta in H. destruct H as (_ & _ & _ & _ & _ & H & _). apply H. reflexivity.
Defined.

(** ** AddItem *)

(** C8, as amended: [add_vitamin] appends the new item, active, under the
    next id of the table and answers [True], not the id; the item then shows
    in [get_user_vitamins].  When SQLite fails the error is caught inside the
    method: it answers [False], nothing is raised to the caller and the store
    is unchanged. *)
Theorem add_vitamin_inserts_and_reports_flag user_id name reminder_time d :
  let d' := state_of (add_vitamin false user_id name reminder_time d) in
  result (add_vitamin false user_id name reminder_time d) = Return true
  /\ vitamins d'
     = vitamins d ++ [ {| vit_id := seq_vitamins d + 1; vit_user_id := user_id;
                          vit_name := name; vit_reminder_time := reminder_time;
                          vit_is_active := true |} ]
  /\ In (seq_vitamins d + 1, name, reminder_time, true) (select_user_vitamins user_id d')
  /\ vitamin_logs d' = vitamin_logs d
  /\ active_reminders d' = active_reminders d
  /\ add_vitamin true user_id name reminder_time d = (Return false, d).
Proof.
  cbv zeta. rewrite add_vitamin_ok. unfold result, state_of; simpl.
  repeat split.
  unfold select_user_vitamins; simpl.
  rewrite List.filter_app, List.map_app. apply List.in_or_app. right.
  simpl. rewrite Z.eqb_refl. simpl. left. reflexivity.
Qed.

(** C8 fails as stated.  Under a failing SQLite call [add_vitamin] returns
    [False] where the spec has it fail with a storage error; and it returns
    the same [True] for the item it inserts under id 1 and for the item it
    inserts under id 2. *)
Lemma add_vitamin_returns_neither_id_nor_error :
  let r1 := add_vitamin false 7 "D" "09:00" init_database in
  let r2 := add_vitamin false 7 "C" "10:00" (state_of r1) in
  result (add_vitamin true 7 "C" "10:00" (state_of r1)) = Return false
  /\ result (add_vitamin true 7 "C" "10:00" (state_of r1)) <> Raise sqlite3_Error
  /\ result r1 = Return true
  /\ List.map vit_id (vitamins (state_of r1)) = [1]
  /\ result r2 = Return true
  /\ List.map vit_id (vitamins (state_of r2)) = [1; 2].
Proof. cbv zeta. repeat split; try reflexivity; discriminate. Qed.

(** ** DeactivateItem *)

Lemma deactivate_twice vitamin_id user_id v :
  let f := fun v => if (vit_id v =? vitamin_id) && (vit_user_id v =? user_id)
                    then deactivate v else v in
  f (f v) = f v.
Proof.
  cbv zeta beta.
  destruct ((vit_id v =? vitamin_id) && (vit_user_id v =? user_id)) eqn:E.
  - simpl. rewrite E. reflexivity.
  - rewrite E. reflexivity.
Qed.

Lemma select_user_vitamins_after_delete vitamin_id user_id d v :
  In v (select_user_vitamins user_id (update_is_active vitamin_id user_id d)) ->
  fst (fst (fst v)) <> vitamin_id.
Proof.
  unfold select_user_vitamins, update_is_active; simpl.
  rewrite List.in_map_iff. intros (x & <- & Hx). simpl.
  apply List.filter_In in Hx. destruct Hx as [Hx Hp].
  apply List.in_map_iff in Hx. destruct Hx as (y & <- & _).
  apply andb_true_iff in Hp. destruct Hp as [Hu Ha].
  destruct ((vit_id y =? vitamin_id) && (vit_user_id y =? user_id)) eqn:E.
  - simpl in Ha. discriminate.
  - intros Hid. apply Z.eqb_eq in Hid. rewrite Hid, Hu in E. discriminate.
Qed.

Lemma select_user_vitamins_other_user vitamin_id user_id other d :
  other <> user_id ->
  select_user_vitamins other (update_is_active vitamin_id user_id d)
  = select_user_vitamins other d.
Proof.
  intros Hne. unfold select_user_vitamins, update_is_active; simpl.
  induction (vitamins d) as [|y l IH]; simpl; [reflexivity|].
  destruct ((vit_id y =? vitamin_id) && (vit_user_id y =? user_id)) eqn:E.
  - apply andb_true_iff in E. destruct E as [_ E]. apply Z.eqb_eq in E.
    simpl vit_user_id.
    assert (Hno : (vit_user_id y =? other) = false) by (apply Z.eqb_neq; congruence).
    rewrite Hno. simpl. exact IH.
  - destruct ((vit_user_id y =? other) && vit_is_active y); simpl; rewrite IH;
      reflexivity.
Qed.

(** C9: without a SQLite failure [delete_vitamin] answers [True] whether or
    not a row matches, and with no matching row the store is unchanged; after
    it the item is in no result of [get_user_vitamins] for its owner; the log
    rows, and with them the grouped counts the statistics read, are unchanged;
    so are the reminder records and the items of other users; a second call
    changes nothing more. *)
Theorem delete_vitamin_hides_item_keeps_logs vitamin_id user_id d :
  let d' := state_of (delete_vitamin false vitamin_id user_id d) in
  result (delete_vitamin false vitamin_id user_id d) = Return true
  /\ get_user_vitamins false user_id d' = (Return (select_user_vitamins user_id d'), d')
  /\ (forall v, In v (select_user_vitamins user_id d') -> fst (fst (fst v)) <> vitamin_id)
  /\ (forall other, other <> user_id ->
      select_user_vitamins other d' = select_user_vitamins other d)
  /\ vitamin_logs d' = vitamin_logs d
  /\ (forall u, select_status_counts u d' = select_status_counts u d)
  /\ (forall u, count_taken u d' = count_taken u d)
  /\ active_reminders d' = active_reminders d
  /\ ((forall v, In v (vitamins d) ->
         (vit_id v =? vitamin_id) && (vit_user_id v =? user_id) = false) ->
      d' = d)
  /\ delete_vitamin false vitamin_id user_id d' = (Return true, d').
Proof.
  cbv zeta. rewrite !delete_vitamin_ok. unfold result, state_of; simpl.
  split; [reflexivity|].
  split; [reflexivity|].
  split; [intros v; apply select_user_vitamins_after_delete|].
  split; [intros other; apply select_user_vitamins_other_user|].
  split; [reflexivity|].
  split; [reflexivity|].
  split; [reflexivity|].
  split; [reflexivity|].
  split.
  - intros Hno. destruct d as [vs ls rs s1 s2 s3].
    unfold update_is_active, set_vitamins; simpl in *. f_equal.
    induction vs as [|y l IH]; simpl; [reflexivity|].
    rewrite (Hno y) by (left; reflexivity). f_equal.
    apply IH. intros v Hv. apply Hno. right. exact Hv.
  - f_equal. destruct d as [vs ls rs s1 s2 s3].
    unfold update_is_active, set_vitamins; simpl. f_equal.
    rewrite List.map_map. apply List.map_ext. intros v.
    apply (deactivate_twice vitamin_id user_id v).
Qed.

Lemma delete_vitamin_hides_item_keeps_logs_witness :
  let d := state_of (add_vitamin false 7 "D" "09:00" init_database) in
  state_of (delete_vitamin false 2 7 d) = d
  /\ select_user_vitamins 8 (state_of (delete_vitamin false 1 7 d))
     = select_user_vitamins 8 d.
Proof.
  intros d. split.
  - pose proof (delete_vitamin_hides_item_keeps_logs 2 7 d) as H.
    cbv zeta in H. destruct H as (_ & _ & _ & _ & _ & _ & _ & _ & H & _).
    apply H. intros v [<- | []]. reflexivity.
  - pose proof (delete_vitamin_hides_item_keeps_logs 1 7 d) as H.
    cbv zeta in H. destruct H as (_ & _ & _ & H & _).
    apply H. discriminate.
Defined.

(** ** Properties of the database that a handler leaves standing *)

Section Preserves.

Variable P : database -> Prop.

Lemma preserves_ret {A} (a : A) : preserves P (ret a).
Proof. intros w H. exact H. Qed.

Lemma preserves_raise {A} (e : exn) : preserves P (@raise world A e).
Proof. intros w H. exact H. Qed.

Lemma preserves_bind {A B} (m : SE world A) (k : A -> SE world B) :
  preserves P m -> (forall a, preserves P (k a)) -> preserves P (bind m k).
Proof.
  intros Hm Hk w H. unfold bind. specialize (Hm w H).
  destruct (m w) as [[a|e] w']; unfold state_of in *; simpl in *.
  - apply (Hk a w' Hm).
  - exact Hm.
Qed.

Lemma preserves_try_except {A} (body : SE world A) (handler : exn -> SE world A) :
  preserves P body -> (forall e, preserves P (handler e)) ->
  preserves P (try_except body handler).
Proof.
  intros Hm Hk w H. unfold try_except. specialize (Hm w H).
  destruct (body w) as [[a|e] w']; unfold state_of in *; simpl in *.
  - exact Hm.
  - apply (Hk e w' Hm).
Qed.

Lemma preserves_for_each {A} (body : A -> SE world unit) (l : list A) :
  (forall x, preserves P (body x)) -> preserves P (for_each body l).
Proof.
  intros Hb. induction l as [|x l IH]; simpl.
  - apply preserves_ret.
  - apply preserves_bind; [apply Hb | intros _; exact IH].
Qed.

Lemma preserves_next_io_fails : preserves P next_io_fails.
Proof. intros w H. unfold next_io_fails. destruct (w_io w); exact H. Qed.

Lemma preserves_db_call {A} (method : bool -> SE database A) :
  (forall fails d, P d -> P (state_of (method fails d))) ->
  preserves P (db_call method).
Proof.
  intros Hm. unfold db_call. apply preserves_bind; [apply preserves_next_io_fails|].
  intros fails w H. specialize (Hm fails (w_db w) H).
  destruct (method fails (w_db w)) as [r d]. exact Hm.
Qed.

Lemma preserves_send_message m : preserves P (send_message m).
Proof.
  unfold send_message. apply preserves_bind; [apply preserves_next_io_fails|].
  intros [|]; [apply preserves_raise | intros w H; exact H].
Qed.

Lemma preserves_answer_text user_id t : preserves P (answer_text user_id t).
Proof.
  unfold answer_text. apply preserves_bind; [apply preserves_next_io_fails|].
  intros [|]; [apply preserves_raise | intros w H; exact H].
Qed.

Lemma preserves_query_answer : preserves P query_answer.
Proof.
  unfold query_answer. apply preserves_bind; [apply preserves_next_io_fails|].
  intros [|]; [apply preserves_raise | apply preserves_ret].
Qed.

Lemma preserves_item parts i : preserves P (@item world parts i).
Proof. unfold item. destruct (nth_error parts i); [apply preserves_ret | apply preserves_raise]. Qed.

Lemma preserves_int s : preserves P (@int world s).
Proof.
  unfold int. destruct (NilZero.int_of_string s);
    [apply preserves_ret | apply preserves_raise].
Qed.

Lemma preserves_send_postponed_reminder data :
  preserves P (send_postponed_reminder data).
Proof.
  unfold send_postponed_reminder. apply preserves_try_except.
  - apply preserves_send_message.
  - intros _. apply preserves_ret.
Qed.

Lemma preserves_show_statistics user_id : preserves P (show_statistics user_id).
Proof.
  unfold show_statistics. apply preserves_try_except.
  - apply preserves_bind.
    + apply preserves_db_call. intros [|] d H; exact H.
    + intros [|g stats]; apply preserves_answer_text.
  - intros _. apply preserves_answer_text.
Qed.

Lemma preserves_toggle_repeat_reminders cfg user_id :
  preserves P (toggle_repeat_reminders cfg user_id).
Proof.
  intros w H. unfold toggle_repeat_reminders.
  apply (preserves_answer_text user_id _ (set_settings _ w)). exact H.
Qed.

(** [P] survives every call of a writing store method. *)
Hypothesis P_stable : forall op d, P d -> P (state_of (run_operation op d)).

Lemma preserves_read_vitamins user_id :
  preserves P (db_call (fun fails => get_user_vitamins fails user_id)).
Proof.
  apply preserves_db_call. intros fails d H.
  rewrite get_user_vitamins_state. exact H.
Qed.

Lemma preserves_handle_postpone user_id data :
  preserves P (handle_postpone user_id data).
Proof.
  unfold handle_postpone. apply preserves_bind.
  { apply preserves_bind; [apply preserves_item | intros p; apply preserves_int]. }
  intros delay. apply preserves_bind.
  { apply preserves_bind; [apply preserves_item | intros p; apply preserves_int]. }
  intros vitamin_id. apply preserves_bind; [apply preserves_read_vitamins|].
  intros vitamins. destruct (List.find _ vitamins) as [[[[i n] t] a]|].
  - apply preserves_bind; [intros w H; exact H | intros _; apply preserves_answer_text].
  - apply preserves_answer_text.
Qed.

Lemma preserves_handle_callback cfg now user_id data :
  preserves P (handle_callback cfg now user_id data).
Proof.
  unfold handle_callback.
  apply preserves_bind; [apply preserves_query_answer | intros _].
  destruct (negb (check_user_access cfg user_id)); [apply preserves_answer_text|].
  destruct (startswith data "taken_").
  { apply preserves_bind.
    - apply preserves_bind; [apply preserves_item | intros p; apply preserves_int].
    - intros vitamin_id. apply preserves_bind.
      + apply preserves_db_call. intros fails d H.
        apply (P_stable (op_log_vitamin_intake fails now vitamin_id user_id "taken") d H).
      + intros [|]; apply preserves_answer_text. }
  destruct (startswith data "delete_").
  { apply preserves_bind.
    - apply preserves_bind; [apply preserves_item | intros p; apply preserves_int].
    - intros vitamin_id. apply preserves_bind.
      + apply preserves_db_call. intros fails d H.
        apply (P_stable (op_delete_vitamin fails vitamin_id user_id) d H).
      + intros [|]; apply preserves_answer_text. }
  destruct (startswith data "postpone_"); [apply preserves_handle_postpone|].
  destruct (String.eqb data "toggle_repeat_reminders").
  - apply preserves_toggle_repeat_reminders.
  - apply preserves_ret.
Qed.

Lemma preserves_remind_if_due now current user_id v :
  preserves P (remind_if_due now current user_id v).
Proof.
  destruct v as [[[vitamin_id name] t] a]. unfold remind_if_due.
  destruct (String.eqb t current); [|apply preserves_ret].
  apply preserves_bind.
  - apply preserves_db_call. intros fails d H.
    apply (P_stable (op_add_active_reminder fails now vitamin_id user_id) d H).
  - intros _. apply preserves_try_except;
      [apply preserves_send_message | intros _; apply preserves_ret].
Qed.

Lemma preserves_send_vitamin_reminder cfg now :
  preserves P (send_vitamin_reminder cfg now).
Proof.
  unfold send_vitamin_reminder. apply preserves_for_each. intros user_id.
  apply preserves_bind; [apply preserves_read_vitamins|].
  intros vitamins. apply preserves_for_each. intros v.
  apply preserves_remind_if_due.
Qed.

Lemma preserves_repeat_reminder cfg now user_id reminder_id vitamin_id name
    attempts last_time :
  preserves P
    (repeat_reminder cfg now user_id reminder_id vitamin_id name attempts last_time).
Proof.
  unfold repeat_reminder. destruct (repeat_due cfg now last_time attempts);
    [|apply preserves_ret].
  apply preserves_bind.
  - apply preserves_db_call. intros fails d H.
    apply (P_stable (op_update_reminder_attempt fails now reminder_id) d H).
  - intros _. apply preserves_try_except;
      [apply preserves_send_message | intros _; apply preserves_ret].
Qed.

Lemma preserves_send_repeat_reminders chicago_tz cfg now :
  preserves P (send_repeat_reminders chicago_tz cfg now).
Proof.
  unfold send_repeat_reminders. apply preserves_for_each. intros user_id.
  apply preserves_bind; [intros w H; exact H|].
  intros settings.
  destruct (negb (repeat_reminders_enabled cfg settings user_id));
    [apply preserves_ret|].
  apply preserves_bind.
  { apply preserves_db_call. intros fails d H.
    rewrite get_active_reminders_state. exact H. }
  intros reminders. apply preserves_for_each. intros [[[[rid vid] name] att] last].
  apply preserves_bind; [apply preserves_raise|].
  intros parsed. apply preserves_repeat_reminder.
Qed.

Lemma preserves_handle chicago_tz cfg e : preserves P (handle chicago_tz cfg e).
Proof.
  destruct e; simpl.
  - intros w H. specialize (P_stable op (w_db w) H).
    destruct (run_operation op (w_db w)) as [r d]. exact P_stable.
  - apply preserves_send_vitamin_reminder.
  - apply preserves_send_repeat_reminders.
  - apply preserves_handle_callback.
  - apply preserves_show_statistics.
  - apply preserves_send_postponed_reminder.
Qed.

Lemma run_events_preserves chicago_tz cfg events w :
  P (w_db w) -> P (w_db (run_events chicago_tz cfg events w)).
Proof.
  revert w. induction events as [|[e io] events IH]; intros w H; simpl.
  - exact H.
  - apply IH. apply (preserves_handle chicago_tz cfg e (set_io io w)). exact H.
Qed.

End Preserves.

(** C3: whatever happens to the bot from start-up on (direct calls of
    [add_vitamin], [add_active_reminder], [update_reminder_attempt],
    [log_vitamin_intake] and [delete_vitamin] with any arguments, ticks of
    the Evaluator and of the Escalation pass at any times and so also twice
    within one minute, button presses, statistics requests, deferred jobs,
    and any pattern of failing I/O calls), the store holds at most one
    reminder record per (item, owner, date). *)
Theorem at_most_one_reminder_per_item_owner_date chicago_tz cfg events :
  one_reminder_per_day (w_db (run_events chicago_tz cfg events init_world)).
Proof.
  apply run_events_preserves.
  - intros op d. apply run_operation_unique.
  - apply one_reminder_per_day_init.
Qed.

(** ** Runs in which no I/O call fails *)

Lemma next_io_fails_quiet w : w_io w = [] -> next_io_fails w = (Return false, w).
Proof. unfold next_io_fails. intros ->. reflexivity. Qed.

Lemma db_call_quiet {A} (method : bool -> SE database A) w :
  w_io w = [] ->
  db_call method w
  = (result (method false (w_db w)), set_db (state_of (method false (w_db w))) w).
Proof.
  intros H. unfold db_call, bind. rewrite next_io_fails_quiet by exact H.
  destruct (method false (w_db w)); reflexivity.
Qed.

Lemma send_message_quiet m w :
  w_io w = [] -> send_message m w = (Return tt, set_sent (w_sent w ++ [m]) w).
Proof.
  intros H. unfold send_message, bind. rewrite next_io_fails_quiet by exact H.
  reflexivity.
Qed.

Lemma answer_text_quiet user_id t w :
  w_io w = [] ->
  answer_text user_id t w = (Return tt, set_answers (w_answers w ++ [(user_id, t)]) w).
Proof.
  intros H. unfold answer_text, bind. rewrite next_io_fails_quiet by exact H.
  reflexivity.
Qed.

Lemma query_answer_quiet w : w_io w = [] -> query_answer w = (Return tt, w).
Proof.
  intros H. unfold query_answer, bind. rewrite next_io_fails_quiet by exact H.
  reflexivity.
Qed.

(** ** The Evaluator pass *)

Lemma after_reminders_nil now user_id w : after_reminders now user_id [] w = w.
Proof.
  destruct w. unfold after_reminders, set_sent, set_db; simpl.
  rewrite app_nil_r. reflexivity.
Qed.

Lemma after_reminders_cons now user_id v due w :
  after_reminders now user_id due (after_reminders now user_id [v] w)
  = after_reminders now user_id (v :: due) w.
Proof.
  destruct w. unfold after_reminders, set_sent, set_db; simpl.
  rewrite <- app_assoc. reflexivity.
Qed.

Lemma remind_if_due_quiet now user_id v w :
  w_io w = [] ->
  remind_if_due now (strftime_HM now) user_id v w
  = (Return tt,
     if String.eqb (snd (fst v)) (strftime_HM now)
     then after_reminders now user_id [v] w else w).
Proof.
  intros H. destruct v as [[[vitamin_id name] t] a]. unfold remind_if_due. simpl.
  destruct (String.eqb t (strftime_HM now)); [|reflexivity].
  unfold bind. rewrite db_call_quiet by exact H.
  rewrite add_active_reminder_ok. unfold result, state_of, try_except; simpl.
  rewrite send_message_quiet by exact H.
  unfold after_reminders, raise_reminders; simpl.
  rewrite add_active_reminder_ok. reflexivity.
Qed.

Lemma for_each_remind_quiet now user_id vitamins w :
  w_io w = [] ->
  for_each (remind_if_due now (strftime_HM now) user_id) vitamins w
  = (Return tt,
     after_reminders now user_id
       (List.filter (fun v : vitamin_tuple => String.eqb (snd (fst v)) (strftime_HM now))
          vitamins) w).
Proof.
  revert w. induction vitamins as [|v l IH]; intros w H; simpl.
  - rewrite after_reminders_nil. reflexivity.
  - unfold bind. rewrite remind_if_due_quiet by exact H.
    destruct (String.eqb (snd (fst v)) (strftime_HM now)).
    + rewrite IH by exact H. rewrite after_reminders_cons. reflexivity.
    + apply IH. exact H.
Qed.

Lemma send_vitamin_reminder_quiet cfg now w :
  w_io w = [] ->
  send_vitamin_reminder cfg now w
  = (Return tt,
     fold_left
       (fun w user_id =>
          after_reminders now user_id (due_vitamins now user_id (w_db w)) w)
       (ALLOWED_USERS cfg) w).
Proof.
  unfold send_vitamin_reminder. revert w.
  induction (ALLOWED_USERS cfg) as [|u users IH]; intros w H; simpl.
  - reflexivity.
  - unfold bind at 1. unfold bind at 1. rewrite db_call_quiet by exact H.
    rewrite get_user_vitamins_ok. unfold result, state_of; simpl.
    assert (Hw : set_db (w_db w) w = w) by (destruct w; reflexivity).
    rewrite Hw. rewrite for_each_remind_quiet by exact H.
    apply IH. exact H.
Qed.

Lemma vitamins_raise_reminders now user_id due d :
  vitamins (raise_reminders now user_id due d) = vitamins d.
Proof.
  unfold raise_reminders. revert d.
  induction due as [|v l IH]; intros d; simpl; [reflexivity|].
  rewrite IH. rewrite add_active_reminder_ok. unfold state_of; simpl.
  destruct (select_reminder_id _ _ _ d); reflexivity.
Qed.

Lemma due_vitamins_depends_on_vitamins now user_id d d' :
  vitamins d = vitamins d' -> due_vitamins now user_id d = due_vitamins now user_id d'.
Proof. unfold due_vitamins, select_user_vitamins. intros ->. reflexivity. Qed.

Lemma due_messages_depends_on_vitamins cfg now d d' :
  vitamins d = vitamins d' -> due_messages cfg now d = due_messages cfg now d'.
Proof.
  intros H. unfold due_messages. apply List.flat_map_ext. intros u.
  rewrite (due_vitamins_depends_on_vitamins now u d d' H). reflexivity.
Qed.

Lemma has_reminder_kept now vitamin_id user_id v u day d :
  has_reminder v u day d ->
  has_reminder v u day (state_of (add_active_reminder false now vitamin_id user_id d)).
Proof.
  intros (r & Hr & Hk). rewrite add_active_reminder_ok. unfold state_of; simpl.
  destruct (select_reminder_id _ _ _ d); [exists r; split; assumption|].
  exists r. split; [|exact Hk]. simpl. apply List.in_or_app. left. exact Hr.
Qed.

Lemma has_reminder_added now vitamin_id user_id d :
  has_reminder vitamin_id user_id (date_of now)
    (state_of (add_active_reminder false now vitamin_id user_id d)).
Proof.
  rewrite add_active_reminder_ok. unfold state_of, select_reminder_id; simpl.
  destruct (List.find _ (active_reminders d)) as [r|] eqn:E; simpl.
  - apply List.find_some in E. exists r. exact E.
  - eexists. split; [simpl; apply List.in_or_app; right; left; reflexivity|].
    unfold reminder_for; simpl. rewrite !Z.eqb_refl. reflexivity.
Qed.

Lemma raise_reminders_kept now user_id due v u day d :
  has_reminder v u day d -> has_reminder v u day (raise_reminders now user_id due d).
Proof.
  unfold raise_reminders. revert d.
  induction due as [|x l IH]; intros d H; simpl; [exact H|].
  apply IH. apply has_reminder_kept. exact H.
Qed.

Lemma raise_reminders_added now user_id due v d :
  In v due ->
  has_reminder (fst (fst (fst v))) user_id (date_of now)
    (raise_reminders now user_id due d).
Proof.
  revert d. induction due as [|x l IH]; intros d Hin; [destruct Hin|].
  destruct Hin as [-> | Hin].
  - apply (raise_reminders_kept now user_id l _ _ _
             (state_of (add_active_reminder false now (fst (fst (fst v))) user_id d))).
    apply has_reminder_added.
  - apply (IH (state_of (add_active_reminder false now (fst (fst (fst x))) user_id d))).
    exact Hin.
Qed.

Lemma evaluator_fold_sent now users w :
  let w' := fold_left
              (fun w user_id =>
                 after_reminders now user_id (due_vitamins now user_id (w_db w)) w)
              users w in
  vitamins (w_db w') = vitamins (w_db w)
  /\ w_sent w'
     = w_sent w
       ++ List.flat_map
            (fun user_id =>
               List.map (reminder_message user_id) (due_vitamins now user_id (w_db w)))
            users.
Proof.
  cbv zeta. revert w. induction users as [|u users IH]; intros w; simpl.
  - rewrite app_nil_r. split; reflexivity.
  - destruct (IH (after_reminders now u (due_vitamins now u (w_db w)) w)) as [Hv Hs].
    assert (Hv1 : vitamins (w_db (after_reminders now u (due_vitamins now u (w_db w)) w))
                  = vitamins (w_db w))
      by (simpl; apply vitamins_raise_reminders).
    split; [congruence|].
    rewrite Hs. simpl w_sent. rewrite <- app_assoc. f_equal. f_equal.
    apply List.flat_map_ext. intros u'.
    rewrite (due_vitamins_depends_on_vitamins now u' _ _ Hv1). reflexivity.
Qed.

Lemma evaluator_fold_kept now users v u day w :
  has_reminder v u day (w_db w) ->
  has_reminder v u day
    (w_db (fold_left
             (fun w user_id =>
                after_reminders now user_id (due_vitamins now user_id (w_db w)) w)
             users w)).
Proof.
  revert w. induction users as [|x users IH]; intros w H; simpl; [exact H|].
  apply IH. simpl. apply raise_reminders_kept. exact H.
Qed.

Lemma evaluator_fold_added now users user_id v w :
  In user_id users -> In v (due_vitamins now user_id (w_db w)) ->
  has_reminder (fst (fst (fst v))) user_id (date_of now)
    (w_db (fold_left
             (fun w user_id =>
                after_reminders now user_id (due_vitamins now user_id (w_db w)) w)
             users w)).
Proof.
  revert w. induction users as [|x users IH]; intros w Hu Hv; [destruct Hu|].
  simpl. destruct Hu as [-> | Hu].
  - apply evaluator_fold_kept. simpl. apply raise_reminders_added. exact Hv.
  - apply IH; [exact Hu|].
    rewrite (due_vitamins_depends_on_vitamins now user_id _ (w_db w)); [exact Hv|].
    simpl. apply vitamins_raise_reminders.
Qed.

(** C1, as amended: in a pass of the Evaluator in which no I/O call fails,
    every active item of an allowed user whose time string is the current
    minute gets its notification, whether [add_active_reminder] created the
    record for (item, owner, today) or found it there: the notifications
    sent are determined by the [vitamins] table and the clock alone.  After
    the pass each such item has a record for today, and the pass never makes
    a second one. *)
Theorem evaluator_notifies_every_due_item cfg now w :
  w_io w = [] ->
  let r := send_vitamin_reminder cfg now w in
  result r = Return tt
  /\ w_sent (state_of r) = w_sent w ++ due_messages cfg now (w_db w)
  /\ (forall d', vitamins d' = vitamins (w_db w) ->
      due_messages cfg now d' = due_messages cfg now (w_db w))
  /\ (forall user_id v,
        In user_id (ALLOWED_USERS cfg) -> In v (due_vitamins now user_id (w_db w)) ->
        has_reminder (fst (fst (fst v))) user_id (date_of now) (w_db (state_of r)))
  /\ (one_reminder_per_day (w_db w) -> one_reminder_per_day (w_db (state_of r))).
Proof.
  intros Hio. cbv zeta.
  split; [rewrite send_vitamin_reminder_quiet by exact Hio; reflexivity|].
  split.
  { rewrite send_vitamin_reminder_quiet by exact Hio. unfold state_of; simpl.
    apply (evaluator_fold_sent now (ALLOWED_USERS cfg) w). }
  split; [intros d' H; apply due_messages_depends_on_vitamins; exact H|].
  split.
  { intros user_id v Hu Hv.
    rewrite send_vitamin_reminder_quiet by exact Hio. unfold state_of; simpl.
    apply evaluator_fold_added; assumption. }
  apply (preserves_send_vitamin_reminder one_reminder_per_day).
  intros op d. apply run_operation_unique.
Qed.

Lemma evaluator_notifies_every_due_item_witness :
  w_sent (state_of (send_vitamin_reminder config_py (at_0900 10) (world_of vitamin_D_added)))
  = w_sent (world_of vitamin_D_added)
    ++ due_messages config_py (at_0900 10) (w_db (world_of vitamin_D_added)).
Proof.
  pose proof (evaluator_notifies_every_due_item config_py (at_0900 10)
                (world_of vitamin_D_added) eq_refl) as H.
  cbv zeta in H. destruct H as (_ & H & _). exact H.
Defined.

(** C1 fails as stated.  The Evaluator ticks at 09:00:10 and again at
    09:00:50.  At the second tick the record of the item for today exists,
    [add_active_reminder] creates nothing, and the notification goes out a
    second time. *)
Lemma evaluator_notifies_again_within_the_minute :
  let w1 := reminded_at_0900 in
  let w2 := state_of (send_vitamin_reminder config_py (at_0900 50) w1) in
  let m := reminder_message owner (1, "Vitamin D", "09:00", true) in
  strftime_HM (at_0900 10) = "09:00" /\ strftime_HM (at_0900 50) = "09:00"
  /\ List.map rem_vitamin_id (active_reminders (w_db w1)) = [1]
  /\ w_db w2 = w_db w1
  /\ w_sent w1 = [m]
  /\ w_sent w2 = [m; m].
Proof. cbv zeta. repeat split; vm_compute; reflexivity. Qed.

(** ** The Escalation pass *)

Lemma same_but_io_refl w : same_but_io w w.
Proof. exists (w_io w). destruct w; reflexivity. Qed.

Lemma same_but_io_trans w1 w2 w3 :
  same_but_io w1 w2 -> same_but_io w2 w3 -> same_but_io w1 w3.
Proof. intros [io ->] [io' ->]. exists io'. reflexivity. Qed.

Lemma same_but_io_next w : same_but_io w (state_of (next_io_fails w)).
Proof.
  unfold next_io_fails. destruct (w_io w) as [|b io] eqn:E.
  - apply same_but_io_refl.
  - exists io. reflexivity.
Qed.

Lemma same_but_io_fields w w' :
  same_but_io w w' ->
  w_db w' = w_db w /\ w_settings w' = w_settings w /\ w_jobs w' = w_jobs w
  /\ w_sent w' = w_sent w /\ w_answers w' = w_answers w.
Proof. intros [io ->]. repeat split. Qed.

(** The inner loop stops at its first row: [last_reminder] is a [datetime]
    and [datetime.fromisoformat] wants a [str]. *)
Lemma for_each_reminder_raises chicago_tz cfg now user_id reminders w :
  for_each
    (fun r : reminder_tuple =>
       let '(reminder_id, vitamin_id, vitamin_name, attempts, last_reminder) := r in
       parsed <- fromisoformat_of_datetime last_reminder ;;
       let last_time := replace_tzinfo parsed chicago_tz in
       repeat_reminder cfg now user_id reminder_id vitamin_id vitamin_name
         attempts last_time)
    reminders w
  = (match reminders with [] => Return tt | _ :: _ => Raise TypeError end, w).
Proof.
  destruct reminders as [|[[[[rid vid] name] att] last] l]; reflexivity.
Qed.

Lemma same_but_io_read_reminders now user_id w :
  same_but_io w
    (state_of (db_call (fun fails => get_active_reminders fails now user_id) w)).
Proof.
  unfold db_call, bind.
  pose proof (same_but_io_next w) as H.
  destruct (next_io_fails w) as [[fails|e] w1]; unfold state_of in *; simpl in *.
  - destruct H as [io ->]. simpl.
    pose proof (get_active_reminders_state fails now user_id (w_db w)) as Hs.
    destruct (get_active_reminders fails now user_id (w_db w)) as [r d].
    unfold state_of in Hs; simpl in Hs. subst d. exists io.
    destruct w; reflexivity.
  - exact H.
Qed.

(** A pass of the Escalation engine changes neither the store nor the
    messages sent. *)
Lemma send_repeat_reminders_frame chicago_tz cfg now w :
  same_but_io w (state_of (send_repeat_reminders chicago_tz cfg now w)).
Proof.
  unfold send_repeat_reminders. revert w.
  induction (ALLOWED_USERS cfg) as [|u users IH]; intros w; simpl.
  - apply same_but_io_refl.
  - unfold bind at 1. unfold bind at 1. cbn beta iota.
    destruct (negb (repeat_reminders_enabled cfg (w_settings w) u)).
    + apply IH.
    + unfold bind at 1.
      pose proof (same_but_io_read_reminders now u w) as H.
      destruct (db_call _ w) as [[reminders|e] w1]; unfold state_of in H; simpl in H.
      * rewrite for_each_reminder_raises.
        destruct reminders; [|exact H].
        eapply same_but_io_trans; [exact H | apply IH].
      * exact H.
Qed.

(** The guarded block of the inner loop is skipped at the cap and within
    the repeat interval. *)
Lemma repeat_reminder_skips cfg now user_id reminder_id vitamin_id name attempts
    last_time w :
  MAX_REMINDER_ATTEMPTS cfg <= attempts
  \/ datetime_sub now last_time < timedelta_seconds (REPEAT_REMINDER_INTERVAL cfg) ->
  repeat_reminder cfg now user_id reminder_id vitamin_id name attempts last_time w
  = (Return tt, w).
Proof.
  intros H. unfold repeat_reminder, repeat_due.
  assert (E : (timedelta_seconds (REPEAT_REMINDER_INTERVAL cfg)
                 <=? datetime_sub now last_time)
              && (attempts <? MAX_REMINDER_ATTEMPTS cfg) = false).
  { apply andb_false_iff. destruct H as [H|H].
    - right. apply Z.ltb_ge. exact H.
    - left. apply Z.leb_gt. exact H. }
  rewrite E. reflexivity.
Qed.

(** What the guarded block does when it is reached with the test true and no
    failing I/O call: one bump of the record [reminder_id] and one message
    that carries the new attempt number and the cap. *)
Lemma repeat_reminder_bumps_and_sends cfg now user_id reminder_id vitamin_id name
    attempts last_time w :
  repeat_due cfg now last_time attempts = true -> w_io w = [] ->
  repeat_reminder cfg now user_id reminder_id vitamin_id name attempts last_time w
  = (Return tt,
     set_sent
       (w_sent w ++
          [ {| chat_id := user_id;
               text := REPEAT_REMINDER_TEXT name (attempts + 1) (MAX_REMINDER_ATTEMPTS cfg);
               reply_markup := reminder_keyboard vitamin_id |} ])
       (set_db (update_attempt now reminder_id (w_db w)) w)).
Proof.
  intros Hdue Hio. unfold repeat_reminder. rewrite Hdue.
  unfold bind. rewrite db_call_quiet by exact Hio.
  rewrite update_reminder_attempt_ok. unfold result, state_of, try_except; simpl.
  rewrite send_message_quiet by exact Hio. reflexivity.
Qed.

(** C5: a pass of the Escalation engine leaves every record whose attempts
    have reached the cap, or whose last notification is less than the repeat
    interval old, in its place and unchanged, and deletes no record; and the
    block of the loop that bumps and re-sends is skipped whenever the
    attempts it is given have reached the cap or the time it compares is less
    than the interval ago. *)
Theorem escalation_never_bumps_capped_or_recent chicago_tz cfg now w i r :
  nth_error (active_reminders (w_db w)) i = Some r ->
  MAX_REMINDER_ATTEMPTS cfg <= rem_attempts r
  \/ datetime_sub now (rem_last_reminder r)
     < timedelta_seconds (REPEAT_REMINDER_INTERVAL cfg) ->
  let w' := state_of (send_repeat_reminders chicago_tz cfg now w) in
  nth_error (active_reminders (w_db w')) i = Some r
  /\ length (active_reminders (w_db w')) = length (active_reminders (w_db w))
  /\ w_sent w' = w_sent w
  /\ forall user_id vitamin_name w0,
       repeat_reminder cfg now user_id (rem_id r) (rem_vitamin_id r) vitamin_name
         (rem_attempts r) (rem_last_reminder r) w0
       = (Return tt, w0).
Proof.
  intros Hr Hskip. cbv zeta.
  destruct (same_but_io_fields _ _ (send_repeat_reminders_frame chicago_tz cfg now w))
    as (Hdb & _ & _ & Hsent & _).
  rewrite Hdb, Hsent.
  split; [exact Hr|]. split; [reflexivity|]. split; [reflexivity|].
  intros user_id vitamin_name w0. apply repeat_reminder_skips. exact Hskip.
Qed.

Lemma escalation_never_bumps_capped_or_recent_witness :
  nth_error
    (active_reminders
       (w_db (state_of (send_repeat_reminders (fun _ => 0) config_py (at_0900 7210)
                          capped_at_1030)))) 0
  = Some capped_record.
Proof.
  pose proof (escalation_never_bumps_capped_or_recent (fun _ => 0) config_py
                (at_0900 7210) capped_at_1030 0 capped_record eq_refl) as H.
  cbv zeta in H. apply H. left. simpl. lia.
Defined.

(** C6 fails on the code.  The record of the scenario is 1800 seconds old
    and has no attempt yet, so the test of the loop would let it through; the
    pass raises [TypeError] before the test, nothing is bumped and nothing is
    sent. *)
Lemma escalation_raises_on_eligible_record chicago_tz :
  let w := reminded_at_0900 in
  let now := at_0900 1810 in
  let r := send_repeat_reminders chicago_tz config_py now w in
  List.map (fun x => (rem_id x, rem_attempts x, rem_last_reminder x))
    (active_reminders (w_db w)) = [(1, 0, at_0900 10)]
  /\ repeat_due config_py now (at_0900 10) 0 = true
  /\ result r = Raise TypeError
  /\ w_db (state_of r) = w_db w
  /\ w_sent (state_of r) = w_sent w.
Proof. cbv zeta. repeat split. Qed.

(** On every store and at any time the pass bumps no record and sends no
    message. *)
Lemma escalation_never_bumps chicago_tz cfg now w :
  let w' := state_of (send_repeat_reminders chicago_tz cfg now w) in
  w_db w' = w_db w /\ w_sent w' = w_sent w.
Proof.
  cbv zeta.
  destruct (same_but_io_fields _ _ (send_repeat_reminders_frame chicago_tz cfg now w))
    as (Hdb & _ & _ & Hsent & _).
  split; assumption.
Qed.

(** The text the unreached block would send for the first escalation. *)
Lemma repeat_reminder_text_first_attempt :
  REPEAT_REMINDER_TEXT "Vitamin D" (0 + 1) (MAX_REMINDER_ATTEMPTS config_py)
  = "🔄 Напоминание #1: Пора принять Vitamin D! (Попытка 1 из 3)".
Proof. reflexivity. Qed.

(** ** Callback data: numerals survive [split] and [int] *)

Lemma has_char_uint d : has_char "_" (NilEmpty.string_of_uint d) = false.
Proof. induction d; simpl; try rewrite IHd; reflexivity. Qed.

Lemma has_char_str_of_int n : has_char "_" (str_of_int n) = false.
Proof.
  unfold str_of_int, NilZero.string_of_int, NilZero.string_of_uint.
  destruct (Z.to_int n) as [d|d]; destruct d; simpl;
    try rewrite has_char_uint; reflexivity.
Qed.

Lemma split_without_separator sep s : has_char sep s = false -> split sep s = [s].
Proof.
  induction s as [|c s IH]; simpl; [reflexivity|].
  intros H. apply orb_false_iff in H. destruct H as [Hc Hs].
  rewrite Hc. rewrite (IH Hs). reflexivity.
Qed.

Lemma split_at_separator sep a b :
  has_char sep a = false ->
  split sep (a +:+ String sep b) = a :: split sep b.
Proof.
  induction a as [|c a IH]; simpl.
  - intros _. rewrite Ascii.eqb_refl. reflexivity.
  - intros H. apply orb_false_iff in H. destruct H as [Hc Ha].
    rewrite Hc. rewrite (IH Ha). reflexivity.
Qed.

Lemma int_str_of_int {S} n (s : S) : int (str_of_int n) s = (Return n, s).
Proof.
  unfold int, str_of_int. rewrite NilZero.isi.
  - rewrite DecimalZ.of_to. reflexivity.
  - destruct n; simpl; try discriminate.
    intros [= H]. apply (DecimalPos.Unsigned.to_uint_nonnil _ H).
  - destruct n; simpl; try discriminate.
    intros [= H]. apply (DecimalPos.Unsigned.to_uint_nonnil _ H).
Qed.

Lemma split_postpone_data delay vitamin_id :
  split "_" ("postpone_" +:+ str_of_int delay +:+ "_" +:+ str_of_int vitamin_id)
  = ["postpone"; str_of_int delay; str_of_int vitamin_id].
Proof.
  change (split "_" ("postpone" +:+ String "_"
                       (str_of_int delay +:+ String "_" (str_of_int vitamin_id)))
          = ["postpone"; str_of_int delay; str_of_int vitamin_id]).
  rewrite split_at_separator by reflexivity.
  rewrite split_at_separator by apply has_char_str_of_int.
  rewrite split_without_separator by apply has_char_str_of_int.
  reflexivity.
Qed.

Lemma startswith_postpone s :
  startswith s "postpone_" = true ->
  startswith s "taken_" = false /\ startswith s "delete_" = false.
Proof.
  unfold startswith. destruct s as [|c s]; [intros H; discriminate H|].
  destruct (ascii_dec "p" c) as [<-|n].
  - intros _. split; reflexivity.
  - cbn [String.prefix]. destruct (ascii_dec "p" c); [contradiction|].
    intros H; discriminate H.
Qed.

Lemma startswith_postpone_data rest : startswith ("postpone_" +:+ rest) "postpone_" = true.
Proof. unfold startswith. simpl. destruct rest; reflexivity. Qed.

(** ** Postpone *)

Lemma handle_callback_postpone cfg now user_id data w :
  startswith data "postpone_" = true ->
  handle_callback cfg now user_id data w
  = (query_answer ;;
     if negb (check_user_access cfg user_id)
     then edit_message_text user_id "❌ У вас нет доступа к этому боту."
     else handle_postpone user_id data) w.
Proof.
  intros H. destruct (startswith_postpone data H) as [Ht Hd].
  unfold handle_callback. rewrite Ht, Hd, H. reflexivity.
Qed.

Lemma handle_postpone_quiet user_id delay vitamin_id w :
  w_io w = [] ->
  handle_postpone user_id
    ("postpone_" +:+ str_of_int delay +:+ "_" +:+ str_of_int vitamin_id) w
  = match List.find (fun v : vitamin_tuple => fst (fst (fst v)) =? vitamin_id)
            (select_user_vitamins user_id (w_db w)) with
    | Some (_, vitamin_name, reminder_time, _) =>
        (Return tt,
         set_answers
           (w_answers w ++
              [(user_id, "⏰ Напоминание отложено на " +:+ str_of_int delay +:+ " минут.")])
           (set_jobs
              (w_jobs w ++
                 [ run_once (delay * 60)
                     {| jd_user_id := user_id; jd_vitamin_id := vitamin_id;
                        jd_vitamin_name := vitamin_name;
                        jd_reminder_time := reminder_time |} ]) w))
    | None =>
        (Return tt, set_answers (w_answers w ++ [(user_id, "❌ Витамин не найден.")]) w)
    end.
Proof.
  intros Hio. unfold handle_postpone. rewrite split_postpone_data.
  unfold item; simpl nth_error. unfold bind at 1. unfold bind at 1. unfold ret at 1.
  rewrite int_str_of_int.
  unfold bind at 1. unfold bind at 1. unfold ret at 1.
  rewrite int_str_of_int.
  unfold bind at 1. rewrite db_call_quiet by exact Hio.
  rewrite get_user_vitamins_ok. unfold result, state_of; simpl fst; simpl snd.
  assert (Hw : set_db (w_db w) w = w) by (destruct w; reflexivity).
  rewrite Hw. cbv iota beta.
  destruct (List.find _ _) as [[[[i n] t] a]|].
  - unfold bind, edit_message_text. rewrite answer_text_quiet by exact Hio.
    reflexivity.
  - unfold edit_message_text. rewrite answer_text_quiet by exact Hio. reflexivity.
Qed.

Lemma handle_callback_postpone_quiet cfg now user_id delay vitamin_id w :
  check_user_access cfg user_id = true ->
  w_io w = [] ->
  handle_callback cfg now user_id
    ("postpone_" +:+ str_of_int delay +:+ "_" +:+ str_of_int vitamin_id) w
  = handle_postpone user_id
      ("postpone_" +:+ str_of_int delay +:+ "_" +:+ str_of_int vitamin_id) w.
Proof.
  intros Hacc Hio.
  rewrite handle_callback_postpone by apply startswith_postpone_data.
  unfold bind. rewrite query_answer_quiet by exact Hio. rewrite Hacc. reflexivity.
Qed.

(** C7, as amended: when an allowed user presses "postpone N" for an item
    that is among that user's active items, and no I/O call fails,
    [handle_callback] schedules exactly one [run_once] job, due N * 60
    seconds later, whose run sends the item's reminder (the text and keyboard
    of the Evaluator's notification); for an item that is not among them it
    schedules nothing.  In every case, also for other callback data that
    start with "postpone_" and under failing calls, the store and with it
    every reminder record (attempts, last notification) is unchanged. *)
Theorem postpone_schedules_one_job_for_active_item cfg now user_id delay vitamin_id w :
  check_user_access cfg user_id = true ->
  w_io w = [] ->
  let data := "postpone_" +:+ str_of_int delay +:+ "_" +:+ str_of_int vitamin_id in
  let w' := state_of (handle_callback cfg now user_id data w) in
  w_db w' = w_db w
  /\ w_sent w' = w_sent w
  /\ match List.find (fun v : vitamin_tuple => fst (fst (fst v)) =? vitamin_id)
             (select_user_vitamins user_id (w_db w)) with
     | Some (_, vitamin_name, reminder_time, _) =>
         let data := {| jd_user_id := user_id; jd_vitamin_id := vitamin_id;
                        jd_vitamin_name := vitamin_name;
                        jd_reminder_time := reminder_time |} in
         w_jobs w' = w_jobs w ++ [run_once (delay * 60) data]
         /\ forall w1, w_io w1 = [] ->
              send_postponed_reminder data w1
              = (Return tt,
                 set_sent
                   (w_sent w1 ++
                      [reminder_message user_id
                         (vitamin_id, vitamin_name, reminder_time, true)]) w1)
     | None => w_jobs w' = w_jobs w
     end
  /\ forall data' w0,
       startswith data' "postpone_" = true ->
       w_db (state_of (handle_callback cfg now user_id data' w0)) = w_db w0.
Proof.
  intros Hacc Hio. cbv zeta.
  rewrite handle_callback_postpone_quiet by assumption.
  rewrite handle_postpone_quiet by exact Hio.
  split; [destruct (List.find _ _) as [[[[i n] t] a]|]; reflexivity|].
  split; [destruct (List.find _ _) as [[[[i n] t] a]|]; reflexivity|].
  split.
  - destruct (List.find _ _) as [[[[i n] t] a]|]; [|reflexivity].
    split; [reflexivity|].
    intros w1 H1. unfold send_postponed_reminder, try_except; simpl.
    rewrite send_message_quiet by exact H1. reflexivity.
  - intros data' w0 H. rewrite handle_callback_postpone by exact H.
    apply (preserves_bind (fun d => d = w_db w0)); [| |reflexivity].
    + apply preserves_query_answer.
    + intros _. destruct (negb (check_user_access cfg user_id)).
      * apply preserves_answer_text.
      * apply preserves_handle_postpone.
Qed.

Lemma postpone_schedules_one_job_for_active_item_witness :
  w_db (state_of (handle_callback config_py (at_0900 60) owner
                    ("postpone_" +:+ str_of_int 5 +:+ "_" +:+ str_of_int 1)
                    reminded_at_0900))
  = w_db reminded_at_0900.
Proof.
  pose proof (postpone_schedules_one_job_for_active_item config_py (at_0900 60) owner
                5 1 reminded_at_0900 eq_refl eq_refl) as H.
  cbv zeta in H. destruct H as (H & _). exact H.
Defined.

(** C7 fails as stated.  The user removes the item and then presses
    "postpone 5" under the reminder already received: no job is scheduled. *)
Lemma postpone_of_removed_item_schedules_nothing :
  let w1 := state_of (handle_callback config_py (at_0900 20) owner "delete_1"
                        reminded_at_0900) in
  let w2 := state_of (handle_callback config_py (at_0900 60) owner "postpone_5_1" w1) in
  w_answers w1 = [(owner, "🗑️ Витамин удалён.")]
  /\ w_jobs w2 = []
  /\ w_answers w2 = [(owner, "🗑️ Витамин удалён."); (owner, "❌ Витамин не найден.")].
Proof. cbv zeta. repeat split; vm_compute; reflexivity. Qed.

(** With the item in place the same press schedules the one job. *)
Lemma postpone_of_active_item_schedules_one_job :
  w_jobs (state_of (handle_callback config_py (at_0900 60) owner "postpone_5_1"
                      reminded_at_0900))
  = [ run_once 300 {| jd_user_id := owner; jd_vitamin_id := 1;
                      jd_vitamin_name := "Vitamin D"; jd_reminder_time := "09:00" |} ].
Proof. vm_compute. reflexivity. Qed.

(** ** Statistics *)

Lemma next_taken_count_status status groups :
  next_taken (count_status status groups)
  = next_taken groups + (if String.eqb status "taken" then 1 else 0).
Proof.
  unfold next_taken. induction groups as [|[s n] g IH]; simpl.
  - destruct (String.eqb status "taken"); reflexivity.
  - destruct (String.eqb_spec s status) as [->|Hne]; simpl.
    + destruct (String.eqb status "taken"); [reflexivity | lia].
    + destruct (String.eqb_spec s "taken") as [->|Hs]; [|exact IH].
      apply String.eqb_neq in Hne. rewrite String.eqb_sym in Hne. rewrite Hne. lia.
Qed.

Lemma next_taken_groups logs groups :
  next_taken (fold_left (fun g l => count_status (log_status l) g) logs groups)
  = next_taken groups
    + Z.of_nat (length (List.filter (fun l => String.eqb (log_status l) "taken") logs)).
Proof.
  revert groups. induction logs as [|l logs IH]; intros groups; simpl.
  - lia.
  - rewrite IH, next_taken_count_status.
    destruct (String.eqb (log_status l) "taken"); simpl length; lia.
Qed.

Lemma filter_filter_andb {A} (p q : A -> bool) (l : list A) :
  List.filter q (List.filter p l) = List.filter (fun x => p x && q x) l.
Proof.
  induction l as [|x l IH]; simpl; [reflexivity|].
  destruct (p x); simpl; [destruct (q x); rewrite IH; reflexivity | exact IH].
Qed.

Lemma next_taken_select_status_counts user_id d :
  next_taken (select_status_counts user_id d) = count_taken user_id d.
Proof.
  unfold select_status_counts, count_taken.
  rewrite next_taken_groups, filter_filter_andb. reflexivity.
Qed.

Lemma count_status_not_nil status groups : count_status status groups <> [].
Proof.
  destruct groups as [|[s n] g]; simpl; [discriminate|].
  destruct (String.eqb s status); discriminate.
Qed.

Lemma groups_not_nil logs groups :
  groups <> [] ->
  fold_left (fun g l => count_status (log_status l) g) logs groups <> [].
Proof.
  revert groups. induction logs as [|l logs IH]; intros groups H; simpl; [exact H|].
  apply IH. apply count_status_not_nil.
Qed.

Lemma select_status_counts_nil user_id d :
  select_status_counts user_id d = []
  <-> List.filter (fun l => log_user_id l =? user_id) (vitamin_logs d) = [].
Proof.
  unfold select_status_counts.
  destruct (List.filter _ (vitamin_logs d)) as [|l logs]; simpl.
  - split; reflexivity.
  - split; [|discriminate]. intros H. exfalso.
    apply (groups_not_nil logs (count_status (log_status l) [])); [|exact H].
    apply count_status_not_nil.
Qed.

(** C10: when no I/O call fails, the statistics view answers a user who has
    log rows with one text in which the number after "Принято витаминов" and
    the number after "Всего записей" are both the number of that user's rows
    with status ['taken']; a user without log rows gets the text that says
    so, without numbers.  A row with any other status adds to neither
    number. *)
Theorem statistics_show_taken_count_twice user_id w :
  w_io w = [] ->
  let taken := count_taken user_id (w_db w) in
  let shown :=
    match List.filter (fun l => log_user_id l =? user_id) (vitamin_logs (w_db w)) with
    | [] => no_statistics_text
    | _ :: _ =>
        "📊 Ваша статистика:" +:+ nl +:+ nl
        +:+ "✅ Принято витаминов: " +:+ str_of_int taken +:+ nl
        +:+ "Всего записей: " +:+ str_of_int taken
    end in
  show_statistics user_id w
  = (Return tt, set_answers (w_answers w ++ [(user_id, shown)]) w)
  /\ forall vitamin_id status,
       status <> "taken" ->
       count_taken user_id (insert_vitamin_log vitamin_id user_id status (w_db w))
       = taken.
Proof.
  intros Hio. cbv zeta. split.
  - unfold show_statistics, try_except, bind. rewrite db_call_quiet by exact Hio.
    unfold result, state_of, with_connection, fetch; simpl fst; simpl snd.
    assert (Hw : set_db (w_db w) w = w) by (destruct w; reflexivity).
    rewrite Hw.
    pose proof (select_status_counts_nil user_id (w_db w)) as Hnil.
    pose proof (next_taken_select_status_counts user_id (w_db w)) as Htaken.
    destruct (select_status_counts user_id (w_db w)) as [|g stats].
    + rewrite (proj1 Hnil eq_refl). unfold reply_text.
      rewrite answer_text_quiet by exact Hio. reflexivity.
    + destruct (List.filter _ (vitamin_logs (w_db w))) as [|l logs].
      * exfalso. destruct Hnil as [_ Hnil]. specialize (Hnil eq_refl). discriminate.
      * unfold reply_text. rewrite answer_text_quiet by exact Hio.
        rewrite Htaken. reflexivity.
  - intros vitamin_id status Hs. unfold count_taken; simpl.
    rewrite List.filter_app, length_app. simpl.
    apply String.eqb_neq in Hs. rewrite Hs, andb_false_r. simpl. lia.
Qed.

Lemma statistics_show_taken_count_twice_witness :
  let w := state_of (handle_callback config_py (at_0900 60) owner "taken_1"
                       reminded_at_0900) in
  show_statistics owner w
  = (Return tt,
     set_answers
       (w_answers w ++
          [(owner,
            "📊 Ваша статистика:" +:+ nl +:+ nl
            +:+ "✅ Принято витаминов: 1" +:+ nl +:+ "Всего записей: 1")]) w).
Proof.
  intros w.
  pose proof (statistics_show_taken_count_twice owner w eq_refl) as H.
  cbv zeta in H. destruct H as (H & _). exact H.
Defined.

(** C10 fails as stated for a user without log rows.  After the 09:00
    reminder the owner has an item and a reminder record and has logged
    nothing, so the number of rows with status ['taken'] is 0; the view shows
    neither count: it answers with the no-records text, which holds no digit
    and is not the statistics text for 0. *)
Lemma statistics_without_log_rows_show_no_count :
  let w := reminded_at_0900 in
  List.filter (fun l => log_user_id l =? owner) (vitamin_logs (w_db w)) = []
  /\ count_taken owner (w_db w) = 0
  /\ show_statistics owner w
     = (Return tt, set_answers (w_answers w ++ [(owner, no_statistics_text)]) w)
  /\ forallb (fun c => negb (is_digit c)) (list_ascii_of_string no_statistics_text) = true
  /\ no_statistics_text <> statistics_text 0.
Proof.
  cbv zeta. split; [reflexivity|]. split; [reflexivity|].
  split; [vm_compute; reflexivity|]. split; [vm_compute; reflexivity|].
  vm_compute. discriminate.
Qed.

(** * Further properties of the handlers *)

(** ** When the Escalation pass ends in an error *)

Lemma for_each_cons {S A} (body : A -> SE S unit) x l s :
  for_each body (x :: l) s
  = match body x s with
    | (Return _, s') => for_each body l s'
    | (Raise e, s') => (Raise e, s')
    end.
Proof. reflexivity. Qed.

Lemma escalation_rows_cons cfg now w u users :
  List.flat_map
    (fun user_id =>
       if repeat_reminders_enabled cfg (w_settings w) user_id
       then select_active_reminders user_id (date_of now) (w_db w)
       else [])
    (u :: users)
  = (if repeat_reminders_enabled cfg (w_settings w) u
     then select_active_reminders u (date_of now) (w_db w) else [])
    ++ List.flat_map
         (fun user_id =>
            if repeat_reminders_enabled cfg (w_settings w) user_id
            then select_active_reminders user_id (date_of now) (w_db w)
            else [])
         users.
Proof. reflexivity. Qed.

Lemma escalation_user_quiet chicago_tz cfg now u w :
  w_io w = [] ->
  (settings <- (fun w => (Return (w_settings w), w)) ;;
   if negb (repeat_reminders_enabled cfg settings u) then ret tt
   else
     reminders <- db_call (fun fails => get_active_reminders fails now u) ;;
     for_each
       (fun r : reminder_tuple =>
          let '(reminder_id, vitamin_id, vitamin_name, attempts, last_reminder) := r in
          parsed <- fromisoformat_of_datetime last_reminder ;;
          let last_time := replace_tzinfo parsed chicago_tz in
          repeat_reminder cfg now u reminder_id vitamin_id vitamin_name
            attempts last_time)
       reminders) w
  = (match (if repeat_reminders_enabled cfg (w_settings w) u
            then select_active_reminders u (date_of now) (w_db w) else []) with
     | [] => Return tt
     | _ :: _ => Raise TypeError
     end, w).
Proof.
  intros Hio. unfold bind at 1. cbn beta iota.
  destruct (repeat_reminders_enabled cfg (w_settings w) u); [|reflexivity].
  change (negb true) with false. cbv iota.
  unfold bind at 1. rewrite db_call_quiet by exact Hio.
  rewrite get_active_reminders_ok. unfold result, state_of. simpl fst. simpl snd.
  assert (Hw : set_db (w_db w) w = w) by (destruct w; reflexivity).
  rewrite Hw. rewrite for_each_reminder_raises. reflexivity.
Qed.

(** X2: when no I/O call fails, a pass of the Escalation engine ends in
    [TypeError] exactly when some allowed user with repeat reminders enabled
    has a reminder row for today, and returns normally otherwise; either way
    the world is as before. *)
Theorem escalation_raises_iff_rows chicago_tz cfg now w :
  w_io w = [] ->
  send_repeat_reminders chicago_tz cfg now w
  = (match escalation_rows cfg now w with
     | [] => Return tt
     | _ :: _ => Raise TypeError
     end, w).
Proof.
  intros Hio. unfold send_repeat_reminders, escalation_rows.
  set (body := fun user_id : Z => _).
  assert (Hbody : forall u,
             body u w
             = (match (if repeat_reminders_enabled cfg (w_settings w) u
                       then select_active_reminders u (date_of now) (w_db w)
                       else []) with
                | [] => Return tt
                | _ :: _ => Raise TypeError
                end, w))
    by (intros u; apply (escalation_user_quiet chicago_tz cfg now u w Hio)).
  induction (ALLOWED_USERS cfg) as [|u users IH].
  - reflexivity.
  - rewrite escalation_rows_cons. rewrite for_each_cons, Hbody.
    destruct (if repeat_reminders_enabled cfg (w_settings w) u
              then select_active_reminders u (date_of now) (w_db w) else []).
    + exact IH.
    + reflexivity.
Qed.

Lemma escalation_raises_iff_rows_witness :
  send_repeat_reminders (fun _ => 0) config_py (at_0900 1810) (world_of vitamin_D_added)
  = (Return tt, world_of vitamin_D_added).
Proof.
  exact (escalation_raises_iff_rows (fun _ => 0) config_py (at_0900 1810)
           (world_of vitamin_D_added) eq_refl).
Defined.

(** ** The allow-list *)

Lemma refused_answer user_id w :
  refused user_id w (state_of (answer_text user_id no_access_text w)).
Proof.
  unfold answer_text, bind, next_io_fails, raise, state_of, refused.
  destruct w as [d st j sent ans io]. simpl.
  destruct io as [|[|] io]; simpl; repeat split; auto.
Qed.

(** X3: a user who is not in [ALLOWED_USERS] changes nothing through
    [handle_callback], [handle_message] or [start], whatever the callback
    data or text and whichever I/O calls fail: the store, the settings, the
    job queue and the messages sent stay as they are, no dialogue is opened,
    and the only possible answer is the no-access text. *)
Theorem unlisted_user_changes_nothing cfg now user_id data text w s :
  check_user_access cfg user_id = false ->
  refused user_id w (state_of (handle_callback cfg now user_id data w))
  /\ refused user_id w (state_of (start cfg user_id w))
  /\ refused user_id (s_world s)
       (s_world (state_of (handle_message cfg user_id text s)))
  /\ s_wizard (state_of (handle_message cfg user_id text s)) = s_wizard s.
Proof.
  intros Hacc. split; [|split; [|split]].
  - unfold handle_callback. rewrite Hacc. change (negb false) with true. cbv iota.
    unfold bind, query_answer. unfold bind.
    pose proof (refused_answer user_id w) as H0.
    unfold next_io_fails at 1.
    destruct w as [d st j sent ans io]. simpl w_io.
    destruct io as [|[|] io]; cbv iota beta.
    + exact H0.
    + unfold raise, state_of, refused. simpl. repeat split; auto.
    + apply (refused_answer user_id
               (set_io io {| w_db := d; w_settings := st; w_jobs := j; w_sent := sent;
                             w_answers := ans; w_io := true :: io |})).
  - unfold start. rewrite Hacc. apply refused_answer.
  - unfold handle_message. rewrite Hacc. change (negb false) with true. cbv iota.
    unfold in_world, reply_text.
    pose proof (refused_answer user_id (s_world s)) as H0.
    destruct (answer_text user_id no_access_text (s_world s)) as [r w']. exact H0.
  - unfold handle_message. rewrite Hacc. change (negb false) with true. cbv iota.
    unfold in_world.
    destruct (reply_text user_id no_access_text (s_world s)) as [r w']. reflexivity.
Qed.

Lemma unlisted_user_changes_nothing_witness :
  refused 5 reminded_at_0900
    (state_of (handle_callback config_py (at_0900 60) 5 "taken_1" reminded_at_0900)).
Proof.
  exact (proj1 (unlisted_user_changes_nothing config_py (at_0900 60) 5 "taken_1" ""
                  reminded_at_0900 (session_of reminded_at_0900) eq_refl)).
Defined.

(** ** Buttons and what comes back from them *)

Lemma split_taken_data vitamin_id :
  split "_" ("taken_" +:+ str_of_int vitamin_id) = ["taken"; str_of_int vitamin_id].
Proof.
  change (split "_" ("taken" +:+ String "_" (str_of_int vitamin_id))
          = ["taken"; str_of_int vitamin_id]).
  rewrite split_at_separator by reflexivity.
  rewrite split_without_separator by apply has_char_str_of_int.
  reflexivity.
Qed.

Lemma split_delete_data vitamin_id :
  split "_" ("delete_" +:+ str_of_int vitamin_id) = ["delete"; str_of_int vitamin_id].
Proof.
  change (split "_" ("delete" +:+ String "_" (str_of_int vitamin_id))
          = ["delete"; str_of_int vitamin_id]).
  rewrite split_at_separator by reflexivity.
  rewrite split_without_separator by apply has_char_str_of_int.
  reflexivity.
Qed.

Lemma startswith_taken_data rest : startswith ("taken_" +:+ rest) "taken_" = true.
Proof. unfold startswith. simpl. destruct rest; reflexivity. Qed.

Lemma startswith_delete_data rest :
  startswith ("delete_" +:+ rest) "taken_" = false
  /\ startswith ("delete_" +:+ rest) "delete_" = true.
Proof. unfold startswith. split; [reflexivity|]. simpl. destruct rest; reflexivity. Qed.

Lemma handle_callback_taken_quiet cfg now user_id vitamin_id w :
  check_user_access cfg user_id = true ->
  w_io w = [] ->
  handle_callback cfg now user_id ("taken_" +:+ str_of_int vitamin_id) w
  = (Return tt,
     set_answers (w_answers w ++ [(user_id, "✅ Отлично! Приём витамина отмечен.")])
       (set_db (state_of (log_vitamin_intake false now vitamin_id user_id "taken" (w_db w)))
          w)).
Proof.
  intros Hacc Hio. unfold handle_callback.
  rewrite startswith_taken_data, Hacc. change (negb true) with false. cbv iota.
  unfold bind at 1. rewrite query_answer_quiet by exact Hio.
  rewrite split_taken_data. unfold item; simpl nth_error.
  unfold bind at 1. unfold bind at 1. unfold ret at 1. rewrite int_str_of_int.
  unfold bind at 1. rewrite db_call_quiet by exact Hio.
  rewrite log_vitamin_intake_ok. unfold result, state_of. simpl fst. simpl snd.
  unfold edit_message_text. rewrite answer_text_quiet by exact Hio. reflexivity.
Qed.

Lemma handle_callback_delete_quiet cfg now user_id vitamin_id w :
  check_user_access cfg user_id = true ->
  w_io w = [] ->
  handle_callback cfg now user_id ("delete_" +:+ str_of_int vitamin_id) w
  = (Return tt,
     set_answers (w_answers w ++ [(user_id, "🗑️ Витамин удалён.")])
       (set_db (update_is_active vitamin_id user_id (w_db w)) w)).
Proof.
  intros Hacc Hio. unfold handle_callback.
  destruct (startswith_delete_data (str_of_int vitamin_id)) as [Ht Hd].
  rewrite Ht, Hd, Hacc. change (negb true) with false. cbv iota.
  unfold bind at 1. rewrite query_answer_quiet by exact Hio.
  rewrite split_delete_data. unfold item; simpl nth_error.
  unfold bind at 1. unfold bind at 1. unfold ret at 1. rewrite int_str_of_int.
  unfold bind at 1. rewrite db_call_quiet by exact Hio.
  rewrite delete_vitamin_ok. unfold result, state_of. simpl fst. simpl snd.
  unfold edit_message_text. rewrite answer_text_quiet by exact Hio. reflexivity.
Qed.

(** X4: the item id that [show_vitamins] and the reminders write into their
    buttons comes back unchanged, for every integer id.  Each row of the list
    has its "taken" and its "delete" button in the keyboard; and when an
    allowed user presses one and no I/O call fails, [handle_callback] logs
    the intake of exactly that item (clearing its record of today), or
    deactivates exactly that item. *)
Theorem button_ids_round_trip cfg now user_id vitamin_id w :
  check_user_access cfg user_id = true ->
  w_io w = [] ->
  (forall vitamins name reminder_time is_active,
      In (vitamin_id, name, reminder_time, is_active) vitamins ->
      In [ {| button_text := "✅ Принял " +:+ name;
              callback_data := "taken_" +:+ str_of_int vitamin_id |} ]
         (vitamins_keyboard vitamins)
      /\ In [ {| button_text := "❌ Удалить " +:+ name;
                 callback_data := "delete_" +:+ str_of_int vitamin_id |} ]
            (vitamins_keyboard vitamins))
  /\ w_db (state_of (handle_callback cfg now user_id
                       ("taken_" +:+ str_of_int vitamin_id) w))
     = state_of (log_vitamin_intake false now vitamin_id user_id "taken" (w_db w))
  /\ w_db (state_of (handle_callback cfg now user_id
                       ("delete_" +:+ str_of_int vitamin_id) w))
     = state_of (delete_vitamin false vitamin_id user_id (w_db w)).
Proof.
  intros Hacc Hio. split; [|split].
  - intros vitamins name reminder_time is_active Hin.
    unfold vitamins_keyboard. split; apply List.in_flat_map;
      exists (vitamin_id, name, reminder_time, is_active);
      (split; [exact Hin | simpl; auto]).
  - rewrite handle_callback_taken_quiet by assumption. reflexivity.
  - rewrite handle_callback_delete_quiet by assumption. reflexivity.
Qed.

Lemma button_ids_round_trip_witness :
  w_db (state_of (handle_callback config_py (at_0900 60) owner
                    ("taken_" +:+ str_of_int 1) reminded_at_0900))
  = state_of (log_vitamin_intake false (at_0900 60) 1 owner "taken"
                (w_db reminded_at_0900)).
Proof.
  exact (proj1 (proj2 (button_ids_round_trip config_py (at_0900 60) owner 1
                         reminded_at_0900 eq_refl eq_refl))).
Defined.

(** X5: every press of a "taken" button by an allowed user, with no failing
    I/O call, raises that user's count of taken intakes by one: the handler
    does not ask whether the item exists, is active or belongs to the user,
    nor whether it was already taken today; the items themselves are left as
    they are. *)
Theorem every_taken_press_is_counted cfg now user_id vitamin_id w :
  check_user_access cfg user_id = true ->
  w_io w = [] ->
  let w' := state_of (handle_callback cfg now user_id
                        ("taken_" +:+ str_of_int vitamin_id) w) in
  count_taken user_id (w_db w') = count_taken user_id (w_db w) + 1
  /\ vitamins (w_db w') = vitamins (w_db w)
  /\ count_taken user_id
       (w_db (state_of (handle_callback cfg now user_id
                          ("taken_" +:+ str_of_int vitamin_id) w')))
     = count_taken user_id (w_db w) + 2.
Proof.
  intros Hacc Hio. cbv zeta.
  assert (Hstep : forall w0, w_io w0 = [] ->
            count_taken user_id
              (w_db (state_of (handle_callback cfg now user_id
                                 ("taken_" +:+ str_of_int vitamin_id) w0)))
            = count_taken user_id (w_db w0) + 1).
  { intros w0 H0. rewrite handle_callback_taken_quiet by assumption.
    rewrite log_vitamin_intake_ok. unfold state_of, count_taken; simpl.
    rewrite List.filter_app, length_app. simpl. rewrite Z.eqb_refl. simpl. lia. }
  split; [apply Hstep; exact Hio|]. split.
  - rewrite handle_callback_taken_quiet by assumption.
    rewrite log_vitamin_intake_ok. reflexivity.
  - rewrite Hstep.
    + rewrite Hstep by exact Hio. lia.
    + rewrite handle_callback_taken_quiet by assumption. exact Hio.
Qed.

Lemma every_taken_press_is_counted_witness :
  count_taken owner
    (w_db (state_of (handle_callback config_py (at_0900 60) owner
                       ("taken_" +:+ str_of_int 99) (world_of init_database))))
  = count_taken owner (w_db (world_of init_database)) + 1.
Proof.
  exact (proj1 (every_taken_press_is_counted config_py (at_0900 60) owner 99
                  (world_of init_database) eq_refl eq_refl)).
Defined.

Lemma split_postpone_without_id delay :
  split "_" ("postpone_" +:+ str_of_int delay) = ["postpone"; str_of_int delay].
Proof.
  change (split "_" ("postpone" +:+ String "_" (str_of_int delay))
          = ["postpone"; str_of_int delay]).
  rewrite split_at_separator by reflexivity.
  rewrite split_without_separator by apply has_char_str_of_int.
  reflexivity.
Qed.

(** X6: callback data outside the shapes the keyboards produce.  With no
    failing I/O call and an allowed user, data "postpone_N" without an item
    id end [handle_callback] with [IndexError] and schedule nothing; data
    that start with none of "taken_", "delete_", "postpone_" and are not the
    toggle command are answered by [query.answer()] alone.  In both cases the
    world is unchanged. *)
Theorem odd_callback_data cfg now user_id delay data w :
  check_user_access cfg user_id = true ->
  w_io w = [] ->
  startswith data "taken_" = false ->
  startswith data "delete_" = false ->
  startswith data "postpone_" = false ->
  String.eqb data "toggle_repeat_reminders" = false ->
  handle_callback cfg now user_id ("postpone_" +:+ str_of_int delay) w
  = (Raise IndexError, w)
  /\ handle_callback cfg now user_id data w = (Return tt, w).
Proof.
  intros Hacc Hio Ht Hd Hp Hg. split.
  - rewrite handle_callback_postpone by apply startswith_postpone_data.
    unfold bind at 1. rewrite query_answer_quiet by exact Hio. rewrite Hacc.
    change (negb true) with false. cbv iota.
    unfold handle_postpone. rewrite split_postpone_without_id.
    unfold item; simpl nth_error.
    unfold bind at 1. unfold bind at 1. unfold ret at 1. rewrite int_str_of_int.
    reflexivity.
  - unfold handle_callback. rewrite Ht, Hd, Hp, Hg, Hacc.
    unfold bind. rewrite query_answer_quiet by exact Hio. reflexivity.
Qed.

Lemma odd_callback_data_witness :
  handle_callback config_py (at_0900 60) owner ("postpone_" +:+ str_of_int 5)
    reminded_at_0900
  = (Raise IndexError, reminded_at_0900)
  /\ handle_callback config_py (at_0900 60) owner "snooze" reminded_at_0900
     = (Return tt, reminded_at_0900).
Proof.
  exact (odd_callback_data config_py (at_0900 60) owner 5 "snooze" reminded_at_0900
           eq_refl eq_refl eq_refl eq_refl eq_refl eq_refl).
Defined.

(** ** What removes a reminder record, and what does not *)

Lemma in_map_bump now reminder_id r l :
  In r l ->
  exists r', In r' (List.map (fun r => if rem_id r =? reminder_id then bump now r else r) l)
             /\ rem_id r' = rem_id r.
Proof.
  intros H.
  exists (if rem_id r =? reminder_id then bump now r else r). split.
  - apply List.in_map_iff. exists r. split; [reflexivity | exact H].
  - destruct (rem_id r =? reminder_id); reflexivity.
Qed.

(** X7: a reminder record leaves the table in one way only.  If a call of a
    writing store method removes a record (no record with its id remains),
    the call was a successful [log_vitamin_intake] with status ['taken'] for
    the record's item and owner, made on the record's own date.  So a record
    that is not acknowledged on its day is never removed. *)
Theorem reminder_removed_only_by_acknowledgment op d r :
  In r (active_reminders d) ->
  (forall r', In r' (active_reminders (state_of (run_operation op d))) ->
              rem_id r' <> rem_id r) ->
  exists now,
    op = op_log_vitamin_intake false now (rem_vitamin_id r) (rem_user_id r) "taken"
    /\ date_of now = rem_reminder_date r.
Proof.
  intros Hin Hgone.
  assert (Hkept : In r (active_reminders (state_of (run_operation op d))) -> False)
    by (intros H; apply (Hgone r H); reflexivity).
  destruct op as [f u n t|f now v u status|f now v u|f now rid|f v u];
    destruct f; try (exfalso; apply Hkept; exact Hin); simpl run_operation in *.
  - rewrite log_vitamin_intake_ok in *. unfold state_of in *; simpl in *.
    destruct (String.eqb_spec status "taken") as [->|Hs];
      [|exfalso; apply Hkept; exact Hin].
    simpl in Hkept.
    destruct (reminder_for v u (date_of now) r) eqn:E.
    + unfold reminder_for in E. rewrite !andb_true_iff, !Z.eqb_eq in E.
      destruct E as [[Ev Eu] Ed]. exists now. subst v u.
      split; [reflexivity | symmetry; exact Ed].
    + exfalso. apply Hkept. apply List.filter_In. split; [exact Hin|].
      rewrite E. reflexivity.
  - exfalso. rewrite add_active_reminder_ok in Hkept. unfold state_of in Hkept.
    simpl in Hkept. destruct (select_reminder_id v u (date_of now) d);
      [exact (Hkept Hin)|].
    apply Hkept. simpl. apply List.in_or_app. left. exact Hin.
  - exfalso. destruct (in_map_bump now rid r _ Hin) as (r' & Hr' & Hid).
    apply (Hgone r'); [exact Hr' | exact Hid].
Qed.

Lemma reminder_removed_only_by_acknowledgment_witness :
  exists now,
    op_log_vitamin_intake false (at_0900 60) 1 owner "taken"
    = op_log_vitamin_intake false now 1 owner "taken"
    /\ date_of now = 20000.
Proof.
  apply (reminder_removed_only_by_acknowledgment
           (op_log_vitamin_intake false (at_0900 60) 1 owner "taken")
           (w_db reminded_at_0900)
           {| rem_id := 1; rem_vitamin_id := 1; rem_user_id := owner;
              rem_reminder_date := 20000; rem_last_reminder := at_0900 10;
              rem_attempts := 0 |}).
  - left. reflexivity.
  - intros r' H. destruct H.
Defined.

Lemma select_active_reminders_after_deactivation vitamin_id owner_id user_id day d :
  select_active_reminders user_id day (update_is_active vitamin_id owner_id d)
  = select_active_reminders user_id day d.
Proof.
  unfold select_active_reminders, update_is_active; simpl.
  apply List.flat_map_ext. intros ar.
  induction (vitamins d) as [|v l IH]; simpl; [reflexivity|].
  assert (Hid : vit_id (if (vit_id v =? vitamin_id) && (vit_user_id v =? owner_id)
                        then deactivate v else v) = vit_id v)
    by (destruct ((vit_id v =? vitamin_id) && (vit_user_id v =? owner_id)); reflexivity).
  assert (Hname : vit_name (if (vit_id v =? vitamin_id) && (vit_user_id v =? owner_id)
                            then deactivate v else v) = vit_name v)
    by (destruct ((vit_id v =? vitamin_id) && (vit_user_id v =? owner_id)); reflexivity).
  rewrite Hid. destruct (vit_id v =? rem_vitamin_id ar); simpl.
  - rewrite Hname, IH. reflexivity.
  - exact IH.
Qed.

(** X8: deactivating an item leaves its reminder rows where the Escalation
    pass finds them: [get_active_reminders] joins on the item's id without
    looking at [is_active], so it returns the same rows after
    [delete_vitamin] as before, for every user and date. *)
Theorem deactivated_item_keeps_its_reminder_rows now vitamin_id owner_id user_id d :
  let d' := state_of (delete_vitamin false vitamin_id owner_id d) in
  get_active_reminders false now user_id d'
  = (result (get_active_reminders false now user_id d), d')
  /\ active_reminders d' = active_reminders d.
Proof.
  cbv zeta. rewrite delete_vitamin_ok, !get_active_reminders_ok.
  unfold state_of, result; simpl fst; simpl snd.
  rewrite select_active_reminders_after_deactivation. split; reflexivity.
Qed.

(** ** Deferred reminders *)

(** X9: a deferred reminder reads nothing from the store.  Whatever the
    store holds when the job comes due (the item acknowledged, deactivated,
    or gone), [send_postponed_reminder] sends the message fixed by the job's
    data when the delivery succeeds, sends nothing when it fails, changes
    neither the store nor the job queue, and never raises. *)
Theorem postponed_reminder_ignores_store data w :
  let r := send_postponed_reminder data w in
  result r = Return tt
  /\ w_db (state_of r) = w_db w
  /\ w_jobs (state_of r) = w_jobs w
  /\ w_sent (state_of r)
     = match w_io w with
       | true :: _ => w_sent w
       | _ => w_sent w ++ [postponed_message data]
       end.
Proof.
  cbv zeta.
  unfold send_postponed_reminder, try_except, send_message, bind, next_io_fails,
    raise, ret, result, state_of, postponed_message.
  destruct w as [d st j sent ans io]. simpl.
  destruct io as [|[|] io]; simpl; repeat split.
Qed.

(** ** Which exceptions leave the handlers *)

Section RaisesOnly.

Context {S : Type}.
Variable E : exn -> Prop.

Lemma raises_only_ret {A} (a : A) : raises_only E (@ret S A a).
Proof. intros s e H. discriminate H. Qed.

Lemma raises_only_raise {A} e : E e -> raises_only E (@raise S A e).
Proof. intros He s e' H. injection H as <-. exact He. Qed.

Lemma raises_only_bind {A B} (m : SE S A) (k : A -> SE S B) :
  raises_only E m -> (forall a, raises_only E (k a)) -> raises_only E (bind m k).
Proof.
  intros Hm Hk s e. unfold bind. specialize (Hm s).
  destruct (m s) as [[a|e'] s']; unfold result in *; simpl in *.
  - apply (Hk a s').
  - intros H. injection H as <-. apply Hm. reflexivity.
Qed.

Lemma raises_only_try_except {A} (body : SE S A) (handler : exn -> SE S A) :
  (forall e, raises_only E (handler e)) -> raises_only E (try_except body handler).
Proof.
  intros Hh s e. unfold try_except.
  destruct (body s) as [[a|e'] s']; unfold result; simpl.
  - discriminate.
  - apply (Hh e' s').
Qed.

Lemma raises_only_for_each {A} (body : A -> SE S unit) (l : list A) :
  (forall x, raises_only E (body x)) -> raises_only E (for_each body l).
Proof.
  intros Hb. induction l as [|x l IH]; simpl.
  - apply raises_only_ret.
  - apply raises_only_bind; [apply Hb | intros _; exact IH].
Qed.

End RaisesOnly.

Lemma raises_only_db_call {A} (E : exn -> Prop) (method : bool -> SE database A) :
  (forall fails, raises_only E (method fails)) -> raises_only E (db_call method).
Proof.
  intros Hm. unfold db_call. apply raises_only_bind.
  - intros w e H. unfold next_io_fails, result in H.
    destruct (w_io w); discriminate H.
  - intros fails w e. specialize (Hm fails (w_db w) e). unfold result in *.
    destruct (method fails (w_db w)) as [r d]. exact Hm.
Qed.

Lemma raises_only_send_message (E : exn -> Prop) m :
  E TelegramError -> raises_only E (send_message m).
Proof.
  intros He. unfold send_message. apply raises_only_bind.
  - intros w e H. unfold next_io_fails, result in H.
    destruct (w_io w); discriminate H.
  - intros [|]; [apply raises_only_raise; exact He | intros w e H; discriminate H].
Qed.

Lemma raises_only_answer_text (E : exn -> Prop) user_id t :
  E TelegramError -> raises_only E (answer_text user_id t).
Proof.
  intros He. unfold answer_text. apply raises_only_bind.
  - intros w e H. unfold next_io_fails, result in H.
    destruct (w_io w); discriminate H.
  - intros [|]; [apply raises_only_raise; exact He | intros w e H; discriminate H].
Qed.

Lemma raises_only_get_user_vitamins (E : exn -> Prop) user_id fails :
  E sqlite3_Error -> raises_only E (get_user_vitamins fails user_id).
Proof.
  intros He d e H. destruct fails; [|discriminate H].
  injection H as <-. exact He.
Qed.

Lemma add_active_reminder_returns fails now vitamin_id user_id d :
  result (add_active_reminder fails now vitamin_id user_id d) = Return (negb fails).
Proof. destruct fails; [reflexivity|]. rewrite add_active_reminder_ok. reflexivity. Qed.

(** X10: the exceptions that can leave the passes and the read-only views,
    whichever I/O calls fail.  The Evaluator pass can only end in the
    [sqlite3] error of a failed [get_user_vitamins]: failed deliveries and a
    failed [add_active_reminder] are swallowed.  [show_statistics] swallows
    the SQLite error and can only end in the error of its own reply.
    [show_vitamins] lets both through.  The Escalation pass can only end in a
    SQLite error or in [TypeError]. *)
Theorem exceptions_that_escape chicago_tz cfg now user_id :
  raises_only (fun e => e = sqlite3_Error) (send_vitamin_reminder cfg now)
  /\ raises_only (fun e => e = TelegramError) (show_statistics user_id)
  /\ raises_only (fun e => e = sqlite3_Error \/ e = TelegramError)
       (show_vitamins user_id)
  /\ raises_only (fun e => e = sqlite3_Error \/ e = TypeError)
       (send_repeat_reminders chicago_tz cfg now).
Proof.
  split; [|split; [|split]].
  - unfold send_vitamin_reminder. apply raises_only_for_each. intros u.
    apply raises_only_bind.
    + apply raises_only_db_call. intros fails.
      apply raises_only_get_user_vitamins. reflexivity.
    + intros vitamins. apply raises_only_for_each. intros [[[vid name] t] a].
      unfold remind_if_due. destruct (String.eqb t (strftime_HM now));
        [|apply raises_only_ret].
      apply raises_only_bind.
      * apply raises_only_db_call. intros fails d e H.
        rewrite add_active_reminder_returns in H. discriminate H.
      * intros _. apply raises_only_try_except. intros _. apply raises_only_ret.
  - unfold show_statistics. apply raises_only_try_except. intros _.
    apply raises_only_answer_text. reflexivity.
  - unfold show_vitamins. apply raises_only_bind.
    + apply raises_only_db_call. intros fails.
      apply raises_only_get_user_vitamins. left. reflexivity.
    + intros [|v l]; apply raises_only_answer_text; right; reflexivity.
  - unfold send_repeat_reminders. apply raises_only_for_each. intros u.
    apply raises_only_bind; [intros w e H; discriminate H|].
    intros settings. destruct (negb (repeat_reminders_enabled cfg settings u));
      [apply raises_only_ret|].
    apply raises_only_bind.
    + apply raises_only_db_call. intros fails d e H.
      destruct fails; [|discriminate H]. injection H as <-. left. reflexivity.
    + intros reminders. apply raises_only_for_each.
      intros [[[[rid vid] name] att] last].
      apply raises_only_bind; [apply raises_only_raise; right; reflexivity|].
      intros parsed. unfold repeat_reminder.
      destruct (repeat_due cfg now _ att); [|apply raises_only_ret].
      apply raises_only_bind.
      * apply raises_only_db_call. intros fails d e H. destruct fails; discriminate H.
      * intros _. apply raises_only_try_except. intros _. apply raises_only_ret.
Qed.

(** ** A delivery that fails *)

(** X11: when the Evaluator has created the record of a due item and the
    delivery of its notification fails, the failure is swallowed: the loop
    goes on, the record stays, and nothing of that notification is sent in
    this pass. *)
Theorem failed_delivery_keeps_record now user_id v w io :
  snd (fst v) = strftime_HM now ->
  w_io w = false :: true :: io ->
  let r := remind_if_due now (strftime_HM now) user_id v w in
  result r = Return tt
  /\ w_db (state_of r)
     = state_of (add_active_reminder false now (fst (fst (fst v))) user_id (w_db w))
  /\ has_reminder (fst (fst (fst v))) user_id (date_of now) (w_db (state_of r))
  /\ w_sent (state_of r) = w_sent w
  /\ w_io (state_of r) = io.
Proof.
  intros Hdue Hio. destruct v as [[[vid name] t] a]. simpl in Hdue. subst t.
  cbv zeta. unfold remind_if_due. rewrite String.eqb_refl.
  assert (Hrun :
    (db_call (fun fails => add_active_reminder fails now vid user_id) ;;
     try_except
       (send_message {| chat_id := user_id;
                        text := REMINDER_TEXT name (strftime_HM now);
                        reply_markup := reminder_keyboard vid |})
       (fun _ => ret tt)) w
    = (Return tt,
       set_io io (set_db (state_of (add_active_reminder false now vid user_id (w_db w)))
                    w))).
  { unfold bind, db_call, try_except, send_message, bind, next_io_fails.
    rewrite Hio. simpl w_db. simpl w_io.
    rewrite add_active_reminder_ok. reflexivity. }
  rewrite Hrun. unfold result, state_of; simpl.
  repeat split. apply has_reminder_added.
Qed.

Lemma failed_delivery_keeps_record_witness :
  w_sent
    (state_of
       (remind_if_due (at_0900 10) (strftime_HM (at_0900 10)) owner
          (1, "Vitamin D", "09:00", true)
          (set_io [false; true] (world_of vitamin_D_added))))
  = w_sent (set_io [false; true] (world_of vitamin_D_added)).
Proof.
  pose proof (failed_delivery_keeps_record (at_0900 10) owner
                (1, "Vitamin D", "09:00", true)
                (set_io [false; true] (world_of vitamin_D_added)) [] eq_refl eq_refl)
    as H.
  cbv zeta in H. destruct H as (_ & _ & _ & H & _). exact H.
Defined.

(** ** Times as text *)

Lemma strptime_HM_state {S} text (s : S) :
  strptime_HM text s = (fst (@strptime_HM unit text tt), s).
Proof.
  unfold strptime_HM.
  destruct (split ":" text) as [|hs [|ms [|x l]]]; try reflexivity.
  destruct (match_H hs), (match_M ms); reflexivity.
Qed.

Lemma reads_as_spec {S} text h m n (s : S) :
  reads_as text h m n = true ->
  strptime_HM text s = (Return (Z.of_nat h, Z.of_nat m), s)
  /\ String.length text = n.
Proof.
  unfold reads_as. rewrite (strptime_HM_state text s).
  destruct (@strptime_HM unit text tt) as [[[h' m']|e] u]; [|discriminate].
  rewrite !andb_true_iff, !Z.eqb_eq, Nat.eqb_eq. intros [[-> ->] ->].
  split; reflexivity.
Qed.

Lemma padded_times_read_back :
  forallb
    (fun h =>
       forallb
         (fun m =>
            reads_as (two_digits (Z.of_nat h) +:+ ":" +:+ two_digits (Z.of_nat m)) h m 5)
         (seq 0 60))
    (seq 0 24) = true.
Proof. vm_compute. reflexivity. Qed.

Lemma short_hours_read_back :
  forallb
    (fun h =>
       forallb
         (fun m =>
            reads_as (str_of_int (Z.of_nat h) +:+ ":" +:+ two_digits (Z.of_nat m)) h m 4)
         (seq 0 60))
    (seq 0 10) = true.
Proof. vm_compute. reflexivity. Qed.

Lemma forallb_seq2 (p : nat -> nat -> bool) a b h m :
  forallb (fun h => forallb (p h) (seq 0 b)) (seq 0 a) = true ->
  (h < a)%nat -> (m < b)%nat -> p h m = true.
Proof.
  intros H Hh Hm.
  rewrite List.forallb_forall in H.
  assert (H1 : forallb (p h) (seq 0 b) = true) by (apply H; apply List.in_seq; lia).
  rewrite List.forallb_forall in H1. apply H1. apply List.in_seq. lia.
Qed.

Lemma string_eqb_length a b :
  String.length a <> String.length b -> String.eqb a b = false.
Proof. intros H. apply String.eqb_neq. intros ->. apply H. reflexivity. Qed.

Lemma strftime_HM_reads_as now :
  reads_as (strftime_HM now) (Z.to_nat (hour_of now)) (Z.to_nat (minute_of now)) 5
  = true.
Proof.
  pose proof (Z.mod_pos_bound (wall now / 3600000000) 24 ltac:(lia)) as Hh.
  pose proof (Z.mod_pos_bound (wall now / 60000000) 60 ltac:(lia)) as Hm.
  unfold strftime_HM. fold (hour_of now) in Hh. fold (minute_of now) in Hm.
  rewrite <- (Z2Nat.id (hour_of now)) at 1 by lia.
  rewrite <- (Z2Nat.id (minute_of now)) at 1 by lia.
  apply (forallb_seq2
           (fun h m =>
              reads_as (two_digits (Z.of_nat h) +:+ ":" +:+ two_digits (Z.of_nat m)) h m 5)
           24 60); [exact padded_times_read_back | lia | lia].
Qed.

Lemma hour_minute_bounds now : 0 <= hour_of now < 24 /\ 0 <= minute_of now < 60.
Proof.
  unfold hour_of, minute_of. split; apply Z.mod_pos_bound; lia.
Qed.

(** X12: the minute string of the Evaluator and the time check of the
    dialogue agree.  For every clock value [strftime("%H:%M")] gives five
    characters, and [strptime(..., "%H:%M")] reads them back as the hour and
    the minute of that clock value. *)
Theorem strftime_strptime_round_trip {S} now (s : S) :
  strptime_HM (strftime_HM now) s = (Return (hour_of now, minute_of now), s)
  /\ String.length (strftime_HM now) = 5%nat.
Proof.
  destruct (hour_minute_bounds now) as [Hh Hm].
  destruct (reads_as_spec _ _ _ _ s (strftime_HM_reads_as now)) as [Hparse Hlen].
  rewrite !Z2Nat.id in Hparse by lia. split; assumption.
Qed.

(** X13: a time typed with a one-digit hour, such as 9:00, passes the time
    check of the dialogue, which stores the text as typed; the Evaluator
    compares the stored text with its zero-padded minute string, so at no
    clock value does it create a record or send a notification for such an
    item. *)
Theorem unpadded_time_is_accepted_and_never_due {S} h m (s : S) :
  0 <= h < 10 -> 0 <= m < 60 ->
  let text := str_of_int h +:+ ":" +:+ two_digits m in
  strptime_HM text s = (Return (h, m), s)
  /\ forall now user_id vitamin_id name is_active w,
       remind_if_due now (strftime_HM now) user_id
         (vitamin_id, name, text, is_active) w
       = (Return tt, w).
Proof.
  intros Hh Hm. cbv zeta.
  assert (Hr : reads_as (str_of_int h +:+ ":" +:+ two_digits m)
                 (Z.to_nat h) (Z.to_nat m) 4 = true).
  { rewrite <- (Z2Nat.id h) at 1 by lia. rewrite <- (Z2Nat.id m) at 1 by lia.
    apply (forallb_seq2
             (fun h m =>
                reads_as (str_of_int (Z.of_nat h) +:+ ":" +:+ two_digits (Z.of_nat m))
                  h m 4)
             10 60); [exact short_hours_read_back | lia | lia]. }
  destruct (reads_as_spec _ _ _ _ s Hr) as [Hparse Hlen].
  rewrite !Z2Nat.id in Hparse by lia.
  split; [exact Hparse|].
  intros now user_id vitamin_id name is_active w. unfold remind_if_due.
  rewrite string_eqb_length; [reflexivity|].
  rewrite Hlen. destruct (reads_as_spec _ _ _ _ tt (strftime_HM_reads_as now)) as [_ ->].
  lia.
Qed.

Lemma unpadded_time_is_accepted_and_never_due_witness :
  @strptime_HM unit (str_of_int 9 +:+ ":" +:+ two_digits 0) tt = (Return (9, 0), tt).
Proof.
  exact (proj1 (@unpadded_time_is_accepted_and_never_due unit 9 0 tt
                  ltac:(lia) ltac:(lia))).
Defined.

(** ** The "add item" dialogue *)

Lemma in_world_reply_quiet user_id t s :
  w_io (s_world s) = [] ->
  in_world (reply_text user_id t) s
  = (Return tt,
     {| s_world := set_answers (w_answers (s_world s) ++ [(user_id, t)]) (s_world s);
        s_wizard := s_wizard s |}).
Proof.
  intros H. unfold in_world, reply_text. rewrite answer_text_quiet by exact H.
  reflexivity.
Qed.

Lemma handle_message_input cfg user_id text s :
  check_user_access cfg user_id = true ->
  is_menu_text text = false ->
  handle_message cfg user_id text s
  = match s_wizard s !! user_id with
    | Some _ => handle_user_input user_id text s
    | None => in_world (reply_text user_id "Используйте кнопки меню для навигации.") s
    end.
Proof.
  intros Hacc Hmenu. unfold is_menu_text in Hmenu.
  rewrite !orb_false_iff in Hmenu. destruct Hmenu as [[[H1 H2] H3] H4].
  unfold handle_message. rewrite Hacc, H1, H2, H3, H4. reflexivity.
Qed.

Lemma handle_message_add cfg user_id s :
  check_user_access cfg user_id = true ->
  handle_message cfg user_id "➕ Добавить витамин" s = add_vitamin_start user_id s.
Proof. intros Hacc. unfold handle_message. rewrite Hacc. reflexivity. Qed.

Lemma accepted_time_is_no_menu_text text h m :
  result (@strptime_HM unit text tt) = Return (h, m) -> is_menu_text text = false.
Proof.
  intros H. unfold is_menu_text.
  destruct (String.eqb_spec text "💊 Мои витамины") as [->|_]; [discriminate H|].
  destruct (String.eqb_spec text "➕ Добавить витамин") as [->|_]; [discriminate H|].
  destruct (String.eqb_spec text "📊 Статистика") as [->|_]; [discriminate H|].
  destruct (String.eqb_spec text "⚙️ Настройки") as [->|_]; [discriminate H|].
  reflexivity.
Qed.

Lemma handle_user_input_time_ok user_id name text h m s :
  s_wizard s !! user_id = Some (step_time name) ->
  result (@strptime_HM unit text tt) = Return (h, m) ->
  w_io (s_world s) = [] ->
  handle_user_input user_id text s
  = (Return tt,
     {| s_world :=
          set_answers
            (w_answers (s_world s) ++
               [(user_id,
                 "✅ Витамин '" +:+ name +:+ "' добавлен!" +:+ nl
                 +:+ "Напоминание установлено на " +:+ text)])
            (set_db (insert_vitamin user_id name text (w_db (s_world s))) (s_world s));
        s_wizard := delete user_id (s_wizard s) |}).
Proof.
  intros Hst Hparse Hio. unfold handle_user_input. rewrite Hst.
  unfold try_except_ValueError. unfold bind at 1.
  rewrite (strptime_HM_state text s). unfold result in Hparse. rewrite Hparse.
  unfold bind at 1. unfold in_world at 1. rewrite db_call_quiet by exact Hio.
  rewrite add_vitamin_ok. unfold result, state_of. simpl fst. simpl snd. cbv iota.
  unfold bind at 1. rewrite in_world_reply_quiet by exact Hio.
  reflexivity.
Qed.

Lemma add_item_dialogue_quiet cfg user_id name text h m s :
  check_user_access cfg user_id = true ->
  w_io (s_world s) = [] ->
  is_menu_text name = false ->
  result (@strptime_HM unit text tt) = Return (h, m) ->
  exists answers,
    add_item_dialogue cfg user_id name text s
    = (Return tt,
       {| s_world :=
            set_answers (w_answers (s_world s) ++ answers)
              (set_db (insert_vitamin user_id name text (w_db (s_world s))) (s_world s));
          s_wizard := delete user_id (s_wizard s) |})
    /\ List.length answers = 3%nat.
Proof.
  intros Hacc Hio Hname Hparse. unfold add_item_dialogue.
  unfold bind at 1. rewrite handle_message_add by exact Hacc.
  unfold add_vitamin_start. unfold bind at 1. unfold set_wizard at 1.
  rewrite in_world_reply_quiet by exact Hio. cbv iota.
  unfold bind at 1. rewrite handle_message_input by assumption.
  simpl s_wizard. rewrite lookup_insert_eq.
  unfold handle_user_input. simpl s_wizard. rewrite lookup_insert_eq.
  unfold bind at 1. unfold set_wizard at 1.
  rewrite in_world_reply_quiet by exact Hio. cbv iota.
  rewrite handle_message_input;
    [|exact Hacc | exact (accepted_time_is_no_menu_text text h m Hparse)].
  simpl s_wizard. rewrite lookup_insert_eq.
  rewrite (handle_user_input_time_ok user_id name text h m);
    [|simpl; apply lookup_insert_eq | exact Hparse | exact Hio].
  simpl s_wizard. simpl s_world.
  rewrite !delete_insert_eq.
  eexists. split.
  - destruct (s_world s) as [d st j sent ans io].
    unfold set_answers, set_db; simpl. rewrite <- !app_assoc. simpl. reflexivity.
  - reflexivity.
Qed.

(** X14: the dialogue adds what was typed.  When an allowed user presses
    "add", sends a name that is not a menu label and then a time that
    [strptime] accepts, and no I/O call fails, the store gains exactly one
    item, active, of that user, with that name and with the time text as
    typed; the user's dialogue state is gone afterwards, the dialogues of
    other users are untouched, and three replies were given. *)
Theorem dialogue_adds_item cfg user_id name text h m s :
  check_user_access cfg user_id = true ->
  w_io (s_world s) = [] ->
  is_menu_text name = false ->
  result (@strptime_HM unit text tt) = Return (h, m) ->
  let r := add_item_dialogue cfg user_id name text s in
  result r = Return tt
  /\ w_db (s_world (state_of r)) = insert_vitamin user_id name text (w_db (s_world s))
  /\ s_wizard (state_of r) !! user_id = None
  /\ (forall other, other <> user_id ->
        s_wizard (state_of r) !! other = s_wizard s !! other)
  /\ List.length (w_answers (s_world (state_of r)))
     = (List.length (w_answers (s_world s)) + 3)%nat.
Proof.
  intros Hacc Hio Hname Hparse. cbv zeta.
  destruct (add_item_dialogue_quiet cfg user_id name text h m s Hacc Hio Hname Hparse)
    as (answers & -> & Hlen).
  unfold result, state_of; simpl.
  split; [reflexivity|]. split; [reflexivity|].
  split; [apply lookup_delete_eq|]. split.
  - intros other Hne. apply lookup_delete_ne. congruence.
  - rewrite length_app, Hlen. reflexivity.
Qed.

Lemma dialogue_adds_item_witness :
  w_db (s_world (state_of (add_item_dialogue config_py owner "Vitamin D" "09:00"
                             (session_of (world_of init_database)))))
  = insert_vitamin owner "Vitamin D" "09:00" init_database.
Proof.
  exact (proj1 (proj2 (dialogue_adds_item config_py owner "Vitamin D" "09:00" 9 0
                         (session_of (world_of init_database))
                         eq_refl eq_refl eq_refl eq_refl))).
Defined.

Lemma ascii_text_is_no_menu_text text : isascii text = true -> is_menu_text text = false.
Proof.
  destruct text as [|c text]; [reflexivity|].
  unfold isascii. cbn [list_ascii_of_string forallb]. intros H.
  apply andb_true_iff in H. destruct H as [Hc _].
  assert (Hb : match c with Ascii _ _ _ _ _ _ _ b7 => b7 end = false).
  { destruct c as [b0 b1 b2 b3 b4 b5 b6 []]; [|reflexivity].
    exfalso. destruct b0, b1, b2, b3, b4, b5, b6; discriminate Hc. }
  destruct c as [b0 b1 b2 b3 b4 b5 b6 b7]. subst b7.
  destruct b0, b1, b2, b3, b4, b5, b6; reflexivity.
Qed.

(** X15: a time that [strptime] refuses costs nothing.  When the user is
    asked for the time and sends an ASCII text that [strptime] rejects, the
    answer is the format hint (if that reply is delivered), the store is
    unchanged and the dialogue still waits for the time of the same item, so
    the user can send it again. *)
Theorem rejected_time_keeps_dialogue cfg user_id name text s :
  check_user_access cfg user_id = true ->
  isascii text = true ->
  s_wizard s !! user_id = Some (step_time name) ->
  result (@strptime_HM unit text tt) = Raise ValueError ->
  let r := handle_message cfg user_id text s in
  s_wizard (state_of r) = s_wizard s
  /\ w_db (s_world (state_of r)) = w_db (s_world s)
  /\ (w_io (s_world s) = [] ->
      r = (Return tt,
           {| s_world := set_answers (w_answers (s_world s) ++ [(user_id, bad_time_text)])
                           (s_world s);
              s_wizard := s_wizard s |})).
Proof.
  intros Hacc Hascii Hst Hparse. cbv zeta.
  pose proof (ascii_text_is_no_menu_text text Hascii) as Hmenu.
  assert (Hrun : handle_message cfg user_id text s
                 = in_world (reply_text user_id bad_time_text) s).
  { rewrite handle_message_input by assumption. rewrite Hst.
    unfold handle_user_input. rewrite Hst.
    unfold try_except_ValueError. unfold bind at 1.
    rewrite (strptime_HM_state text s). unfold result in Hparse. rewrite Hparse.
    reflexivity. }
  rewrite Hrun. split; [|split].
  - unfold in_world. destruct (reply_text user_id bad_time_text (s_world s)). reflexivity.
  - unfold in_world.
    pose proof (preserves_answer_text (fun d => d = w_db (s_world s)) user_id
                  bad_time_text (s_world s) eq_refl) as H.
    unfold reply_text. destruct (answer_text user_id bad_time_text (s_world s)).
    exact H.
  - intros Hio. apply in_world_reply_quiet. exact Hio.
Qed.

Lemma rejected_time_keeps_dialogue_witness :
  let s := {| s_world := world_of init_database;
              s_wizard := <[owner := step_time "Vitamin D"]> ∅ |} in
  s_wizard (state_of (handle_message config_py owner "25:00" s)) = s_wizard s.
Proof.
  intros s.
  exact (proj1 (rejected_time_keeps_dialogue config_py owner "Vitamin D" "25:00" s
                  eq_refl eq_refl eq_refl eq_refl)).
Defined.

(** ** The per-user switch of repeat reminders *)

Lemma current_setting cfg settings user_id :
  default (ENABLE_REPEAT_REMINDERS cfg) (default (∅ : gmap Z bool) settings !! user_id)
  = repeat_reminders_enabled cfg settings user_id.
Proof.
  unfold repeat_reminders_enabled. destruct settings as [m|]; simpl.
  - destruct (m !! user_id); reflexivity.
  - rewrite lookup_empty. reflexivity.
Qed.

Lemma toggle_settings cfg user_id w :
  w_settings (state_of (toggle_repeat_reminders cfg user_id w))
  = Some (<[user_id := negb (repeat_reminders_enabled cfg (w_settings w) user_id)]>
            (default ∅ (w_settings w))).
Proof.
  unfold toggle_repeat_reminders. cbv zeta. rewrite current_setting.
  unfold edit_message_text, answer_text, bind, next_io_fails, raise, state_of.
  destruct w as [d st j sent ans io]. simpl.
  destruct io as [|[|] io]; reflexivity.
Qed.

Lemma toggle_frame cfg user_id w :
  w_db (state_of (toggle_repeat_reminders cfg user_id w)) = w_db w
  /\ w_io (state_of (toggle_repeat_reminders cfg user_id w)) = tl (w_io w).
Proof.
  unfold toggle_repeat_reminders. cbv zeta.
  unfold edit_message_text, answer_text, bind, next_io_fails, raise, state_of.
  destruct w as [d st j sent ans io]. simpl.
  destruct io as [|[|] io]; split; reflexivity.
Qed.

Lemma enabled_after_insert cfg settings user_id b other :
  repeat_reminders_enabled cfg (Some (<[user_id := b]> (default ∅ settings))) other
  = if decide (user_id = other) then b else repeat_reminders_enabled cfg settings other.
Proof.
  unfold repeat_reminders_enabled at 1. rewrite lookup_insert.
  destruct (decide (user_id = other)); [reflexivity|].
  destruct settings as [m|]; simpl; [reflexivity|].
  rewrite lookup_empty. reflexivity.
Qed.

Lemma handle_callback_toggle_quiet cfg now user_id w :
  check_user_access cfg user_id = true ->
  w_io w = [] ->
  handle_callback cfg now user_id "toggle_repeat_reminders" w
  = toggle_repeat_reminders cfg user_id w.
Proof.
  intros Hacc Hio. unfold handle_callback. rewrite Hacc.
  unfold bind. rewrite query_answer_quiet by exact Hio. reflexivity.
Qed.

(** X16: the toggle button flips the switch of the user who pressed it and
    of nobody else.  After an allowed user's "toggle_repeat_reminders" (no
    I/O failure), the test that opens the loop body of the Escalation pass
    gives the opposite answer for that user and the same answer for every
    other user; the store is untouched; a second press restores the first
    answer. *)
Theorem toggle_flips_one_user cfg now user_id w :
  check_user_access cfg user_id = true ->
  w_io w = [] ->
  let press := handle_callback cfg now user_id "toggle_repeat_reminders" in
  let w' := state_of (press w) in
  repeat_reminders_enabled cfg (w_settings w') user_id
  = negb (repeat_reminders_enabled cfg (w_settings w) user_id)
  /\ (forall other, other <> user_id ->
        repeat_reminders_enabled cfg (w_settings w') other
        = repeat_reminders_enabled cfg (w_settings w) other)
  /\ w_db w' = w_db w
  /\ repeat_reminders_enabled cfg (w_settings (state_of (press w'))) user_id
     = repeat_reminders_enabled cfg (w_settings w) user_id.
Proof.
  intros Hacc Hio. cbv zeta.
  rewrite handle_callback_toggle_quiet by assumption.
  assert (Hio' : w_io (state_of (toggle_repeat_reminders cfg user_id w)) = [])
    by (rewrite (proj2 (toggle_frame cfg user_id w)), Hio; reflexivity).
  rewrite handle_callback_toggle_quiet by assumption.
  rewrite !toggle_settings, !enabled_after_insert.
  destruct (decide (user_id = user_id)) as [_|Hn]; [|exfalso; apply Hn; reflexivity].
  split; [reflexivity|]. split.
  - intros other Hne. rewrite enabled_after_insert.
    destruct (decide (user_id = other)); [congruence | reflexivity].
  - split; [apply toggle_frame | apply negb_involutive].
Qed.

Lemma toggle_flips_one_user_witness :
  repeat_reminders_enabled config_py
    (w_settings (state_of (handle_callback config_py (at_0900 60) owner
                             "toggle_repeat_reminders" reminded_at_0900))) owner
  = negb (repeat_reminders_enabled config_py (w_settings reminded_at_0900) owner).
Proof.
  exact (proj1 (toggle_flips_one_user config_py (at_0900 60) owner reminded_at_0900
                  eq_refl eq_refl)).
Defined.

(** X17: looking at the settings changes no switch.  [show_settings] writes
    the configured default into [user_states] for a user who has no entry,
    but the test of the Escalation pass answers the same for every user
    before and after, whichever I/O calls fail; the store is untouched. *)
Theorem show_settings_changes_no_switch cfg user_id other w :
  let w' := state_of (show_settings cfg user_id w) in
  repeat_reminders_enabled cfg (w_settings w') other
  = repeat_reminders_enabled cfg (w_settings w) other
  /\ w_db w' = w_db w.
Proof.
  cbv zeta.
  assert (Hs : w_settings (state_of (show_settings cfg user_id w))
               = Some (match default (∅ : gmap Z bool) (w_settings w) !! user_id with
                       | Some _ => default ∅ (w_settings w)
                       | None => <[user_id := ENABLE_REPEAT_REMINDERS cfg]>
                                   (default ∅ (w_settings w))
                       end)
               /\ w_db (state_of (show_settings cfg user_id w)) = w_db w).
  { unfold show_settings. cbv zeta.
    unfold reply_text, answer_text, bind, next_io_fails, raise, state_of.
    destruct w as [d st j sent ans io]. simpl.
    destruct io as [|[|] io]; split; reflexivity. }
  destruct Hs as [-> ->]. split; [|reflexivity].
  destruct (default (∅ : gmap Z bool) (w_settings w) !! user_id) as [b|] eqn:E.
  - unfold repeat_reminders_enabled. destruct (w_settings w) as [m|]; simpl in *;
      [reflexivity|].
    rewrite lookup_empty in E. discriminate E.
  - rewrite enabled_after_insert. destruct (decide (user_id = other)) as [<-|];
      [|reflexivity].
    rewrite <- current_setting, E. reflexivity.
Qed.

(** ** config.validate_config *)

(** X18: [validate_config] reports no error exactly when the bot token is
    neither empty nor the placeholder the file ships with, the allow-list is
    not empty and the database path is not empty; it reports at most three
    errors, and the configuration as shipped is refused. *)
Theorem validate_config_accepts_iff BOT_TOKEN cfg DATABASE_PATH :
  (validate_config BOT_TOKEN cfg DATABASE_PATH = []
   <-> BOT_TOKEN <> "" /\ BOT_TOKEN <> token_placeholder
       /\ ALLOWED_USERS cfg <> [] /\ DATABASE_PATH <> "")
  /\ (List.length (validate_config BOT_TOKEN cfg DATABASE_PATH) <= 3)%nat
  /\ validate_config token_placeholder config_py "data/vitamins.db" <> [].
Proof.
  unfold validate_config. split; [|split].
  - split.
    + intros H.
      destruct (String.eqb_spec BOT_TOKEN "") as [H1|H1]; [discriminate H|].
      destruct (String.eqb_spec BOT_TOKEN token_placeholder) as [H2|H2];
        [discriminate H|].
      destruct (ALLOWED_USERS cfg) as [|u l]; [discriminate H|].
      destruct (String.eqb_spec DATABASE_PATH "") as [H3|H3]; [discriminate H|].
      repeat split; try assumption. discriminate.
    + intros (H1 & H2 & H3 & H4).
      destruct (String.eqb_spec BOT_TOKEN "") as [E1|_]; [contradiction|].
      destruct (String.eqb_spec BOT_TOKEN token_placeholder) as [E2|_];
        [contradiction|].
      destruct (ALLOWED_USERS cfg) as [|u l]; [contradiction|].
      destruct (String.eqb_spec DATABASE_PATH "") as [E3|_]; [contradiction|].
      reflexivity.
  - destruct (String.eqb BOT_TOKEN "" || String.eqb BOT_TOKEN token_placeholder);
      destruct (ALLOWED_USERS cfg); destruct (String.eqb DATABASE_PATH "");
      simpl; lia.
  - discriminate.
Qed.

(** ** A second pass of the Evaluator *)

Lemma add_active_reminder_noop now vitamin_id user_id d :
  has_reminder vitamin_id user_id (date_of now) d ->
  state_of (add_active_reminder false now vitamin_id user_id d) = d.
Proof.
  intros (r & Hr & Hk). rewrite add_active_reminder_ok. unfold state_of; simpl.
  unfold select_reminder_id.
  destruct (List.find _ (active_reminders d)) as [r0|] eqn:E; [reflexivity|].
  rewrite (List.find_none _ _ E r Hr) in Hk. discriminate Hk.
Qed.

Lemma raise_reminders_noop now user_id due d :
  (forall v, In v due -> has_reminder (fst (fst (fst v))) user_id (date_of now) d) ->
  raise_reminders now user_id due d = d.
Proof.
  unfold raise_reminders. induction due as [|v l IH]; intros H; simpl; [reflexivity|].
  rewrite add_active_reminder_noop by (apply H; left; reflexivity).
  apply IH. intros x Hx. apply H. right. exact Hx.
Qed.

Lemma due_vitamins_same_minute now now' user_id d :
  strftime_HM now' = strftime_HM now ->
  due_vitamins now' user_id d = due_vitamins now user_id d.
Proof. unfold due_vitamins. intros ->. reflexivity. Qed.

Lemma evaluator_fold_io now users w :
  w_io (fold_left
          (fun w user_id =>
             after_reminders now user_id (due_vitamins now user_id (w_db w)) w)
          users w) = w_io w.
Proof.
  revert w. induction users as [|u users IH]; intros w; simpl; [reflexivity|].
  rewrite IH. reflexivity.
Qed.

Lemma evaluator_fold_noop now users w :
  (forall user_id v, In user_id users -> In v (due_vitamins now user_id (w_db w)) ->
     has_reminder (fst (fst (fst v))) user_id (date_of now) (w_db w)) ->
  w_db (fold_left
          (fun w user_id =>
             after_reminders now user_id (due_vitamins now user_id (w_db w)) w)
          users w) = w_db w.
Proof.
  revert w. induction users as [|u users IH]; intros w H; simpl; [reflexivity|].
  assert (Hdb : w_db (after_reminders now u (due_vitamins now u (w_db w)) w) = w_db w).
  { simpl. apply raise_reminders_noop. intros v Hv. apply H; [left; reflexivity | exact Hv]. }
  rewrite IH; [exact Hdb|].
  intros user_id v Hu Hv. rewrite Hdb in *. apply H; [right; exact Hu | exact Hv].
Qed.

(** X19: a second pass of the Evaluator within the same minute of the same
    day, with no failing I/O call in either pass, leaves every row of the
    store as the first pass left it, and sends the notifications of the first
    pass once more. *)
Theorem evaluator_second_pass cfg now now' w :
  w_io w = [] ->
  date_of now' = date_of now ->
  strftime_HM now' = strftime_HM now ->
  let w1 := state_of (send_vitamin_reminder cfg now w) in
  let w2 := state_of (send_vitamin_reminder cfg now' w1) in
  w_db w2 = w_db w1
  /\ w_sent w1 = w_sent w ++ due_messages cfg now (w_db w)
  /\ w_sent w2 = w_sent w1 ++ due_messages cfg now (w_db w).
Proof.
  intros Hio Hdate Hminute. cbv zeta.
  rewrite (send_vitamin_reminder_quiet cfg now w Hio). unfold state_of at 2 3 4 5.
  simpl snd.
  set (w1 := fold_left _ (ALLOWED_USERS cfg) w).
  assert (Hio1 : w_io w1 = []) by (unfold w1; rewrite evaluator_fold_io; exact Hio).
  destruct (evaluator_fold_sent now (ALLOWED_USERS cfg) w) as [Hv1 Hs1].
  fold w1 in Hv1, Hs1.
  rewrite (send_vitamin_reminder_quiet cfg now' w1 Hio1). unfold state_of. simpl snd.
  destruct (evaluator_fold_sent now' (ALLOWED_USERS cfg) w1) as [_ Hs2].
  assert (Hdue : forall u, due_vitamins now' u (w_db w1) = due_vitamins now u (w_db w)).
  { intros u. rewrite (due_vitamins_same_minute now now' u _ Hminute).
    apply due_vitamins_depends_on_vitamins. exact Hv1. }
  split; [|split].
  - apply evaluator_fold_noop. intros user_id v Hu Hv.
    rewrite Hdate. rewrite Hdue in Hv. unfold w1.
    apply evaluator_fold_added; assumption.
  - exact Hs1.
  - rewrite Hs2. f_equal. unfold due_messages. apply List.flat_map_ext.
    intros u. rewrite Hdue. reflexivity.
Qed.

Lemma evaluator_second_pass_witness :
  w_db (state_of (send_vitamin_reminder config_py (at_0900 50) reminded_at_0900))
  = w_db reminded_at_0900.
Proof.
  exact (proj1 (evaluator_second_pass config_py (at_0900 10) (at_0900 50)
                  (world_of vitamin_D_added) eq_refl eq_refl eq_refl)).
Defined.

(** ** The log filter *)

Lemma prefix_cons a t b s :
  String.prefix (String a t) (String b s)
  = if ascii_dec a b then String.prefix t s else false.
Proof. cbn [String.prefix]. destruct (ascii_dec a b); reflexivity. Qed.

Lemma prefix_empty t : String.prefix t "" = true -> t = "".
Proof. destruct t; [reflexivity | intros H; discriminate H]. Qed.

Lemma prefix_nil s : String.prefix "" s = true.
Proof. destruct s; reflexivity. Qed.

Lemma prefix_before_separator c t x y :
  has_char c t = false ->
  String.prefix t (x +:+ String c y) = true -> String.prefix t x = true.
Proof.
  revert t. induction x as [|a x IH]; intros t Hc H.
  - destruct t as [|b t]; [reflexivity|]. exfalso.
    change ("" +:+ String c y) with (String c y) in H. rewrite prefix_cons in H.
    simpl in Hc. apply orb_false_iff in Hc. destruct Hc as [Hb _].
    destruct (ascii_dec b c) as [->|]; [|discriminate H].
    rewrite Ascii.eqb_refl in Hb. discriminate Hb.
  - destruct t as [|b t]; [reflexivity|].
    change (String a x +:+ String c y) with (String a (x +:+ String c y)) in H.
    rewrite prefix_cons in *. destruct (ascii_dec b a); [|discriminate H].
    apply IH; [|exact H]. simpl in Hc. apply orb_false_iff in Hc. apply Hc.
Qed.

Lemma prefix_app t x y : String.prefix t x = true -> String.prefix t (x +:+ y) = true.
Proof.
  revert t. induction x as [|a x IH]; intros t H.
  - rewrite (prefix_empty t H). apply prefix_nil.
  - destruct t as [|b t]; [reflexivity|].
    change (String a x +:+ y) with (String a (x +:+ y)).
    rewrite prefix_cons in *. destruct (ascii_dec b a); [|discriminate H].
    apply IH. exact H.
Qed.

Lemma contains_cons t a s :
  contains t (String a s) = String.prefix t (String a s) || contains t s.
Proof. reflexivity. Qed.

Lemma contains_around_separator c t x y :
  t <> "" -> has_char c t = false ->
  contains t x = false -> contains t y = false ->
  contains t (x +:+ String c y) = false.
Proof.
  intros Ht Hc Hx Hy. induction x as [|a x IH].
  - change ("" +:+ String c y) with (String c y). rewrite contains_cons, Hy, orb_false_r.
    destruct (String.prefix t (String c y)) eqn:E; [|reflexivity].
    exfalso. apply Ht. apply prefix_empty.
    apply (prefix_before_separator c t "" y Hc E).
  - change (String a x +:+ String c y) with (String a (x +:+ String c y)).
    rewrite contains_cons in *. apply orb_false_iff in Hx. destruct Hx as [Hp Hx].
    rewrite (IH Hx), orb_false_r.
    destruct (String.prefix t (String a (x +:+ String c y))) eqn:E; [|reflexivity].
    rewrite <- Hp. symmetry.
    apply (prefix_before_separator c t (String a x) y Hc E).
Qed.

Lemma prefix_chars t x c :
  String.prefix t x = true -> has_char c t = true -> has_char c x = true.
Proof.
  revert x. induction t as [|b t IH]; intros x H Hc; [discriminate Hc|].
  destruct x as [|a x]; [discriminate H|].
  rewrite prefix_cons in H. destruct (ascii_dec b a) as [->|]; [|discriminate H].
  simpl in *. destruct (Ascii.eqb a c); [reflexivity|]. simpl in *.
  apply IH; assumption.
Qed.

Lemma contains_chars t x c :
  contains t x = true -> has_char c t = true -> has_char c x = true.
Proof.
  intros H Hc. induction x as [|a x IH].
  - simpl in H. rewrite orb_false_r in H. apply (prefix_chars t "" c H Hc).
  - rewrite contains_cons in H. apply orb_true_iff in H. destruct H as [H|H].
    + apply (prefix_chars t _ c H Hc).
    + simpl. rewrite (IH H). apply orb_true_r.
Qed.

Lemma contains_empty t : t <> "" -> contains t "" = false.
Proof. destruct t; [intros H; contradiction | reflexivity]. Qed.

(** Up to its first marker the filtered text is the text itself. *)
Lemma replace_agrees_until_marker old rest s :
  replace_skip old (String "[" rest) 0 s = s
  \/ exists u v w, s = u +:+ v /\ replace_skip old (String "[" rest) 0 s = u +:+ String "[" w.
Proof.
  induction s as [|c s IH]; [left; reflexivity|].
  cbn [replace_skip]. destruct (String.prefix old (String c s)).
  - right. exists "", (String c s). eexists. split; reflexivity.
  - destruct IH as [->|(u & v & w & Hs & Hr)]; [left; reflexivity|].
    right. exists (String c u), v, w. rewrite Hr, Hs. split; reflexivity.
Qed.

Lemma replace_hides token skip msg :
  token <> "" ->
  has_char "[" token = false ->
  has_char "]" token = false ->
  contains token "HIDDEN_TOKEN" = false ->
  contains token (replace_skip token "[HIDDEN_TOKEN]" skip msg) = false.
Proof.
  intros Ht Hl Hr Hin. revert skip.
  induction msg as [|c s IH]; intros skip.
  - destruct skip; apply contains_empty; exact Ht.
  - cbn [replace_skip]. destruct skip as [|k]; [|apply IH].
    destruct (String.prefix token (String c s)) eqn:E.
    + change ("[HIDDEN_TOKEN]" +:+ replace_skip token "[HIDDEN_TOKEN]"
                                     (String.length token - 1) s)
        with ("" +:+ String "["
                ("HIDDEN_TOKEN" +:+ String "]"
                   (replace_skip token "[HIDDEN_TOKEN]" (String.length token - 1) s))).
      apply contains_around_separator; [exact Ht | exact Hl | |].
      * apply contains_empty. exact Ht.
      * apply contains_around_separator; [exact Ht | exact Hr | exact Hin | apply IH].
    + rewrite contains_cons, IH, orb_false_r.
      destruct (replace_agrees_until_marker token "HIDDEN_TOKEN]" s)
        as [->|(u & v & w & Hs & Hrep)]; [exact E|].
      change "[HIDDEN_TOKEN]" with (String "[" "HIDDEN_TOKEN]").
      rewrite Hrep.
      destruct (String.prefix token (String c (u +:+ String "[" w))) eqn:E2;
        [|reflexivity].
      exfalso.
      pose proof (prefix_before_separator "[" token (String c u) w Hl E2) as Hp.
      apply (prefix_app token (String c u) v) in Hp.
      change (String c u +:+ v) with (String c (u +:+ v)) in Hp.
      rewrite <- Hs, E in Hp. discriminate Hp.
Qed.

(** X20: the log filter hides the token.  [TokenFilter.filter] keeps every
    record (it returns [True]) and leaves the message alone when the token is
    empty; and when the token is not empty, holds neither "[" nor "]" and
    has a character that "HIDDEN_TOKEN" lacks (a digit or the colon of a bot
    token), the filtered message does not contain the token, whatever the
    message was. *)
Theorem token_filter_hides_token token c msg :
  token <> "" ->
  has_char "[" token = false ->
  has_char "]" token = false ->
  has_char c token = true ->
  has_char c "HIDDEN_TOKEN" = false ->
  fst (TokenFilter_filter token msg) = true
  /\ contains token (snd (TokenFilter_filter token msg)) = false
  /\ TokenFilter_filter "" msg = (true, msg).
Proof.
  intros Ht Hl Hr Hc Hm. split; [reflexivity|]. split; [|reflexivity].
  unfold TokenFilter_filter, replace. simpl snd.
  destruct token as [|a t]; [contradiction|].
  apply replace_hides; try assumption.
  destruct (contains (String a t) "HIDDEN_TOKEN") eqn:E; [|reflexivity].
  rewrite (contains_chars _ _ c E Hc) in Hm. discriminate Hm.
Qed.

Lemma token_filter_hides_token_witness :
  contains "123:abc"
    (snd (TokenFilter_filter "123:abc" "POST /bot123:abc/getMe 123:abc123:abc")) = false.
Proof.
  exact (proj1 (proj2 (token_filter_hides_token "123:abc" ":"
                         "POST /bot123:abc/getMe 123:abc123:abc"
                         ltac:(discriminate) eq_refl eq_refl eq_refl eq_refl))).
Defined.

(** Without the condition on brackets the token can come back: replacing
    "]a" in "X]aa" joins the marker's last character with the text behind. *)
Lemma token_filter_can_rebuild_token :
  snd (TokenFilter_filter "]a" "X]aa") = "X[HIDDEN_TOKEN]a"
  /\ contains "]a" (snd (TokenFilter_filter "]a" "X]aa")) = true.
Proof. split; vm_compute; reflexivity. Qed.

(** ** History is only added to *)

Lemma extends_refl d : extends d d.
Proof.
  split; [exists []; rewrite app_nil_r; reflexivity|].
  split; [exists []; rewrite app_nil_r; reflexivity|].
  intros i v H _. exact H.
Qed.

Lemma extends_trans d0 d1 d2 : extends d0 d1 -> extends d1 d2 -> extends d0 d2.
Proof.
  intros ([l1 H1] & [m1 M1] & K1) ([l2 H2] & [m2 M2] & K2).
  split; [exists (l1 ++ l2); rewrite H2, H1, app_assoc; reflexivity|].
  split; [exists (m1 ++ m2); rewrite M2, M1, app_assoc; reflexivity|].
  intros i v H Hv. apply K2; [apply K1; assumption | exact Hv].
Qed.

Lemma extends_same_items d d' :
  (exists l, vitamin_logs d' = vitamin_logs d ++ l) ->
  vitamins d' = vitamins d -> extends d d'.
Proof.
  intros Hl Hv. split; [exact Hl|]. rewrite Hv.
  split; [exists []; rewrite app_nil_r; reflexivity|].
  intros i v H _. exact H.
Qed.

Lemma deactivate_inactive vitamin_id user_id v :
  vit_is_active v = false ->
  (if (vit_id v =? vitamin_id) && (vit_user_id v =? user_id) then deactivate v else v)
  = v.
Proof.
  intros H. destruct ((vit_id v =? vitamin_id) && (vit_user_id v =? user_id));
    [|reflexivity].
  destruct v as [i u n t a]. simpl in H. subst a. reflexivity.
Qed.

Lemma run_operation_extends op d : extends d (state_of (run_operation op d)).
Proof.
  destruct op as [f u n t|f now v u status|f now v u|f now rid|f v u];
    destruct f; try apply extends_refl; simpl run_operation.
  - rewrite add_vitamin_ok. unfold state_of; simpl.
    split; [exists []; rewrite app_nil_r; reflexivity|].
    split; [simpl; rewrite List.map_app; eexists; reflexivity|].
    intros i v H _. simpl. rewrite nth_error_app1; [exact H|].
    apply nth_error_Some. rewrite H. discriminate.
  - rewrite log_vitamin_intake_ok. unfold state_of; simpl.
    apply extends_same_items.
    + destruct (String.eqb status "taken"); simpl; eexists; reflexivity.
    + destruct (String.eqb status "taken"); reflexivity.
  - rewrite add_active_reminder_ok. unfold state_of; simpl.
    destruct (select_reminder_id v u (date_of now) d); [apply extends_refl|].
    apply extends_same_items; [exists []; simpl; rewrite app_nil_r|]; reflexivity.
  - rewrite update_reminder_attempt_ok. unfold state_of; simpl.
    apply extends_same_items; [exists []; simpl; rewrite app_nil_r|]; reflexivity.
  - rewrite delete_vitamin_ok. unfold state_of; simpl.
    split; [exists []; simpl; rewrite app_nil_r; reflexivity|].
    split.
    + exists []. rewrite app_nil_r. simpl. rewrite List.map_map.
      apply List.map_ext. intros x.
      destruct ((vit_id x =? v) && (vit_user_id x =? u)); reflexivity.
    + intros i x H Hx. simpl. rewrite nth_error_map, H. simpl.
      rewrite deactivate_inactive by exact Hx. reflexivity.
Qed.

Lemma extends_count_taken user_id d d' :
  extends d d' -> count_taken user_id d <= count_taken user_id d'.
Proof.
  intros ([l H] & _). unfold count_taken. rewrite H, List.filter_app, length_app. lia.
Qed.

(** X21: history is only added to.  Whatever happens to the bot (calls of
    the writing store methods, ticks of both passes, callbacks, statistics
    requests, deferred jobs, with any failing I/O calls), the log rows and
    the items that were in the store are still there afterwards, in place:
    no log row is removed or changed, no item is removed or changes its id,
    owner, name or time, and an item that was deactivated is never active
    again; so no user's count of taken intakes ever goes down. *)
Theorem history_is_only_added_to chicago_tz cfg events w :
  let w' := run_events chicago_tz cfg events w in
  extends (w_db w) (w_db w')
  /\ forall user_id, count_taken user_id (w_db w) <= count_taken user_id (w_db w').
Proof.
  cbv zeta.
  assert (H : extends (w_db w) (w_db (run_events chicago_tz cfg events w))).
  { apply (run_events_preserves (extends (w_db w))).
    - intros op d Hd. apply (extends_trans _ d); [exact Hd | apply run_operation_extends].
    - apply extends_refl. }
  split; [exact H|]. intros user_id. apply extends_count_taken. exact H.
Qed.

(** ** One user cannot reach another user's rows *)

Section OwnCalls.

Variable P : database -> Prop.
Variable user_id : Z.

Hypothesis P_log : forall fails now vitamin_id d,
  P d -> P (state_of (log_vitamin_intake fails now vitamin_id user_id "taken" d)).
Hypothesis P_delete : forall fails vitamin_id d,
  P d -> P (state_of (delete_vitamin fails vitamin_id user_id d)).

Lemma preserves_handle_callback_own cfg now data :
  preserves P (handle_callback cfg now user_id data).
Proof.
  unfold handle_callback.
  apply preserves_bind; [apply preserves_query_answer | intros _].
  destruct (negb (check_user_access cfg user_id)); [apply preserves_answer_text|].
  destruct (startswith data "taken_").
  { apply preserves_bind.
    - apply preserves_bind; [apply preserves_item | intros p; apply preserves_int].
    - intros vitamin_id. apply preserves_bind.
      + apply preserves_db_call. intros fails d H. apply P_log. exact H.
      + intros [|]; apply preserves_answer_text. }
  destruct (startswith data "delete_").
  { apply preserves_bind.
    - apply preserves_bind; [apply preserves_item | intros p; apply preserves_int].
    - intros vitamin_id. apply preserves_bind.
      + apply preserves_db_call. intros fails d H. apply P_delete. exact H.
      + intros [|]; apply preserves_answer_text. }
  destruct (startswith data "postpone_"); [apply preserves_handle_postpone|].
  destruct (String.eqb data "toggle_repeat_reminders").
  - apply preserves_toggle_repeat_reminders.
  - apply preserves_ret.
Qed.

End OwnCalls.

Lemma user_view_after_log fails now vitamin_id user_id other d :
  other <> user_id ->
  user_view other (state_of (log_vitamin_intake fails now vitamin_id user_id "taken" d))
  = user_view other d.
Proof.
  intros Hne. destruct fails; [reflexivity|].
  rewrite log_vitamin_intake_ok. unfold state_of, user_view; simpl.
  assert (Hu : (user_id =? other) = false) by (apply Z.eqb_neq; congruence).
  f_equal; [f_equal|].
  - rewrite filter_filter_andb. apply List.filter_ext. intros r.
    unfold reminder_for.
    destruct (rem_user_id r =? other) eqn:E; [|rewrite andb_false_r; reflexivity].
    apply Z.eqb_eq in E. rewrite E.
    assert (Ho : (other =? user_id) = false) by (apply Z.eqb_neq; exact Hne).
    rewrite Ho, andb_false_r. reflexivity.
  - rewrite List.filter_app. simpl. rewrite Hu, app_nil_r. reflexivity.
Qed.

Lemma user_view_after_delete fails vitamin_id user_id other d :
  other <> user_id ->
  user_view other (state_of (delete_vitamin fails vitamin_id user_id d))
  = user_view other d.
Proof.
  intros Hne. destruct fails; [reflexivity|].
  rewrite delete_vitamin_ok. unfold state_of, user_view; simpl snd.
  rewrite select_user_vitamins_other_user by exact Hne. reflexivity.
Qed.

(** X22: one user cannot reach another user's rows.  Whatever callback data
    a user sends and whichever I/O calls fail, the active items, the reminder
    records and the log rows of every other user are after [handle_callback]
    what they were before. *)
Theorem callback_leaves_other_users_alone cfg now user_id data other w :
  other <> user_id ->
  user_view other (w_db (state_of (handle_callback cfg now user_id data w)))
  = user_view other (w_db w).
Proof.
  intros Hne.
  apply (preserves_handle_callback_own
           (fun d => user_view other d = user_view other (w_db w)) user_id).
  - intros fails now' vitamin_id d H. rewrite user_view_after_log by exact Hne. exact H.
  - intros fails vitamin_id d H. rewrite user_view_after_delete by exact Hne. exact H.
  - reflexivity.
Qed.

Lemma callback_leaves_other_users_alone_witness :
  user_view owner
    (w_db (state_of (handle_callback config_py (at_0900 60) 987654321 "taken_1"
                       reminded_at_0900)))
  = user_view owner (w_db reminded_at_0900).
Proof.
  apply (callback_leaves_other_users_alone config_py (at_0900 60) 987654321 "taken_1"
           owner reminded_at_0900).
  discriminate.
Defined.
